(** * personalfinance backend: the sync / upsert contract of [backend/app.py]

    A shallow embedding of the Flask handlers of [src/backend/app.py] over an
    explicit model of the relational store, and the properties of the
    synchronisation and upsert contract proved about it.

    Modelling conventions.
    - A Python [str] is a Rocq [string]; characters are code points below 256.
      In that range the only characters matched by the regular expression
      class [\d] are the ASCII digits.
    - A JSON value received in a request body, and a Python value held by a
      model attribute, is a [json].  Numbers are carried, never computed on.
    - Each table is a finite map from its primary key to its row.  The NOT
      NULL and PRIMARY KEY constraints declared in the models are checked when
      a handler flushes; whether the FOREIGN KEY of [Payment.loan_id] is
      enforced depends on the database the application is pointed at, so it
      is a parameter of the model ([enforce_fk]).  The column defaults
      declared in the models are applied when a row is inserted.
    - A column hands back the value it was given.  That is what the code does
      with a value of the column's own type ([typed]): a string without a NUL
      character in a [String] column, a finite float in a [Float] column, a
      32-bit integer in an [Integer] column, a boolean in a [Boolean] column,
      null anywhere.  An integer of at most 53 bits in a [Float] column is
      counted among them: it stands for the float equal to it.  What becomes
      of any other value (an exception, or a converted value) is decided by
      the database and its driver and is not described here; the same holds
      for an [id] that is neither a string nor null, for which the model
      raises.  The properties below that conclude that a request is answered
      assume a typed payload.
    - An exception that escapes a handler aborts the request: the session is
      discarded, the store keeps its previous contents and the framework
      answers with a server error ([Uncaught]). *)

From Stdlib Require Import ZArith String Ascii List Bool Lia.
From Stdlib Require Import Floats.SpecFloat.
From stdpp Require Import gmap strings list fin_maps.

#[local] Set Warnings "-register-all".
#[local] Open Scope string_scope.
#[local] Open Scope Z_scope.

(** ** Python values *)

Inductive json : Type :=
  | JNull
  | JBool (b : bool)
  | JInt (z : Z)
  | JFloat (f : spec_float)
  | JStr (s : string)
  | JArr (l : list json)
  | JObj (o : gmap string json).

(** [data.get(k)] and [data.get(k, d)] on a dict. *)
Definition dget (k : string) (data : gmap string json) : json :=
  default JNull (data !! k).

Definition dget_default (k : string) (d : json) (data : gmap string json) : json :=
  default d (data !! k).

(** A dict literal, written in the order of the source. *)
Definition dict (l : list (string * json)) : json := JObj (list_to_map l).

(** Exceptions the handlers can let escape. *)
Inductive exn : Type :=
  | AttributeError
  | TypeError
  | ValueError
  | IntegrityError
  | DBAPIError.

(** What a request is answered with: [jsonify(body), status], or an
    exception that nobody catches. *)
Inductive outcome : Type :=
  | Reply (status : Z) (body : json)
  | Uncaught (e : exn).

(** ** Dates: [datetime.strptime(_, '%Y-%m-%d').date()] and [date.isoformat()] *)

Record date : Type := Date { year : Z; month : Z; day : Z }.

Definition is_leap (y : Z) : bool :=
  (y mod 4 =? 0) && (negb (y mod 100 =? 0) || (y mod 400 =? 0)).

Definition days_in_month (y m : Z) : Z :=
  if m =? 2 then (if is_leap y then 29 else 28)
  else if (m =? 4) || (m =? 6) || (m =? 9) || (m =? 11) then 30
  else 31.

(** The check made by the [date(year, month, day)] constructor. *)
Definition valid_date (d : date) : bool :=
  (1 <=? year d) && (year d <=? 9999) &&
  (1 <=? month d) && (month d <=? 12) &&
  (1 <=? day d) && (day d <=? days_in_month (year d) (month d)).

Module Re.
(** A backtracking matcher: every way a pattern matches a prefix of the
    subject, in the order the regular expression engine tries them, each
    with the value of what it matched and the rest of the subject. *)
Definition t (A : Type) : Type := string -> list (A * string).

Definition digit_val (c : ascii) : option Z :=
  let n := Z.of_N (N_of_ascii c) in
  if (48 <=? n) && (n <=? 57) then Some (n - 48) else None.

(** A character class [[lo-hi]] of digits; [\d] is [cls 0 9]. *)
Definition cls (lo hi : Z) : t Z := fun s =>
  match s with
  | String c r =>
      match digit_val c with
      | Some d => if (lo <=? d) && (d <=? hi) then [(d, r)] else []
      | None => []
      end
  | EmptyString => []
  end.

(** A literal character. *)
Definition chr (c : ascii) : t unit := fun s =>
  match s with
  | String c' r => if Ascii.eqb c c' then [(tt, r)] else []
  | EmptyString => []
  end.

Definition seq {A B C} (f : A -> B -> C) (p : t A) (q : t B) : t C := fun s =>
  '(a, r) ← p s; '(b, r') ← q r; [(f a b, r')].

Definition alt {A} (p q : t A) : t A := fun s => (p s ++ q s)%list.

Definition two (tens : t Z) (units : t Z) : t Z :=
  seq (fun a b => 10 * a + b) tens units.

(** [(?P<Y>\d\d\d\d)] *)
Definition Y : t Z :=
  seq (fun a b => 100 * a + b) (two (cls 0 9) (cls 0 9)) (two (cls 0 9) (cls 0 9)).

(** [(?P<m>1[0-2]|0[1-9]|[1-9])] *)
Definition m : t Z :=
  alt (two (cls 1 1) (cls 0 2)) (alt (two (cls 0 0) (cls 1 9)) (cls 1 9)).

(** [(?P<d>3[0-1]|[1-2]\d|0[1-9]|[1-9]| [1-9])]; [int] skips the blank of
    the last alternative. *)
Definition d : t Z :=
  alt (two (cls 3 3) (cls 0 1))
    (alt (two (cls 1 2) (cls 0 9))
      (alt (two (cls 0 0) (cls 1 9))
        (alt (cls 1 9)
          (seq (fun _ b => b) (chr " ") (cls 1 9))))).

(** [-(?P<m>...)-(?P<d>...)] *)
Definition md : t (Z * Z) :=
  seq (fun _ x => x) (chr "-")
    (seq (fun mo dy => (mo, dy)) m
      (seq (fun _ dy => dy) (chr "-") d)).

(** The pattern compiled from ['%Y-%m-%d']. *)
Definition Ymd : t date :=
  seq (fun y x => Date y (fst x) (snd x)) Y md.
End Re.

(** [datetime.strptime(s, '%Y-%m-%d').date()]: the first match of the
    pattern must consume the whole string and name a date that exists;
    otherwise [ValueError]. *)
Definition strptime (s : string) : option date :=
  match Re.Ymd s with
  | (dt, rest) :: _ =>
      match rest with
      | EmptyString => if valid_date dt then Some dt else None
      | _ => None
      end
  | [] => None
  end.

(** [s.split('T')[0]] *)
Fixpoint split_T_0 (s : string) : string :=
  match s with
  | EmptyString => EmptyString
  | String c r => if Ascii.eqb c "T" then EmptyString else String c (split_T_0 r)
  end.

Definition digit_char (d : Z) : ascii := ascii_of_N (Z.to_N (48 + d)).

(** ['%02d' % n] and ['%04d' % n] for the ranges a date holds. *)
Definition fmt02 (n : Z) : string :=
  String (digit_char (n / 10)) (String (digit_char (n mod 10)) EmptyString).

Definition fmt04 (n : Z) : string :=
  String (digit_char (n / 1000)) (String (digit_char (n / 100 mod 10))
    (String (digit_char (n / 10 mod 10)) (String (digit_char (n mod 10)) EmptyString))).

(** [date.isoformat()] *)
Definition isoformat (d : date) : string :=
  (fmt04 (year d) ++ "-" ++ fmt02 (month d) ++ "-" ++ fmt02 (day d))%string.

(** Whether the month and day written as two digits each are read back by
    the pattern as themselves, with nothing left over. *)
Definition md_check (mo dy : Z) : bool :=
  match Re.md ("-" ++ fmt02 mo ++ "-" ++ fmt02 dy)%string with
  | ((mo', dy'), EmptyString) :: _ => (mo' =? mo) && (dy' =? dy)
  | _ => false
  end.

(** [x.isoformat() if x else None]; a date object is always true. *)
Definition iso_or_none (x : option date) : json :=
  match x with
  | Some d => JStr (isoformat d)
  | None => JNull
  end.

(** ** Fallible steps of a handler *)

Inductive res (A : Type) : Type :=
  | Ok (a : A)
  | Raise (e : exn).
Arguments Ok {A} a.
Arguments Raise {A} e.

#[export] Instance res_ret : MRet res := fun _ a => Ok a.
#[export] Instance res_bind : MBind res := fun _ _ f m =>
  match m with
  | Ok a => f a
  | Raise e => Raise e
  end.

(** [guard_db c e]: the statement goes through when [c] holds, and the
    database raises [e] otherwise. *)
Definition guard_db (c : bool) (e : exn) : res unit :=
  if c then Ok tt else Raise e.

(** ** The models *)

Definition is_null (v : json) : bool :=
  match v with
  | JNull => true
  | _ => false
  end.

(** The value of a [String] key column ([id], [loan_id]) as given by the
    client: [None] is no key, a [str] is the key; the model lets the driver
    refuse a value of any other type. *)
Inductive key : Type :=
  | KNone
  | KStr (s : string)
  | KBad.

Definition as_key (v : json) : key :=
  match v with
  | JNull => KNone
  | JStr s => KStr s
  | _ => KBad
  end.

(** A row is the columns of the model other than its primary key [id]; the
    tables below map the key to the row. *)
Module Payment.
Record t : Type := mk {
  loan_id : option string;
  date : option date;
  amount : json;
  note : json
}.

Definition to_dict (id : json) (self : t) : json :=
  dict [ ("id", id);
         ("date", iso_or_none (date self));
         ("amount", amount self);
         ("note", note self) ].

(** [nullable=False] on [loan_id], [date] and [amount]. *)
Definition not_null (self : t) : bool :=
  bool_decide (is_Some (loan_id self)) && bool_decide (is_Some (date self))
  && negb (is_null (amount self)).
End Payment.

Module Loan.
Record t : Type := mk {
  user_id : option string;
  name : json;
  lender : json;
  principal : json;
  interest_rate : json;
  start_date : option date;
  emi_amount : json;
  tenure_months : json;
  initial_paid_months : json;
  due_date_day : json;
  type : json;
  status : json;
  is_foreclosed : json
}.

(** The relationship [Loan.payments]: the payments whose [loan_id] is this
    loan's [id]. *)
Definition payments (tbl : gmap string Payment.t) (id : string)
  : list (string * Payment.t) :=
  filter (fun p => Payment.loan_id p.2 = Some id) (map_to_list tbl).

Definition to_dict (tbl : gmap string Payment.t) (id : string) (self : t) : json :=
  dict [ ("id", JStr id);
         ("name", name self);
         ("lender", lender self);
         ("principal", principal self);
         ("interestRate", interest_rate self);
         ("startDate", iso_or_none (start_date self));
         ("emiAmount", emi_amount self);
         ("tenureMonths", tenure_months self);
         ("initialPaidMonths", initial_paid_months self);
         ("dueDateDay", due_date_day self);
         ("type", type self);
         ("status", status self);
         ("isForeclosed", is_foreclosed self);
         ("payments",
           JArr ((fun p => Payment.to_dict (JStr p.1) p.2) <$> payments tbl id)) ].

(** [nullable=False] on [user_id], [name] and [principal]. *)
Definition not_null (self : t) : bool :=
  bool_decide (is_Some (user_id self)) && negb (is_null (name self))
  && negb (is_null (principal self)).

(** [Loan(id=..., user_id=user_id)]: the other attributes are unset. *)
Definition new (user_id : option string) : t :=
  mk user_id JNull JNull JNull JNull None JNull JNull JNull JNull JNull JNull JNull.

(** The assignments under [# Update fields] in [save_loan], given the date
    that [startDate] parsed to. *)
Definition update_fields (self : t) (data : gmap string json) (parsed : date) : t := {|
  user_id := user_id self;
  name := dget "name" data;
  lender := dget "lender" data;
  principal := dget "principal" data;
  interest_rate := dget "interestRate" data;
  start_date := Some parsed;
  emi_amount := dget "emiAmount" data;
  tenure_months := dget "tenureMonths" data;
  initial_paid_months := dget_default "initialPaidMonths" (JInt 0) data;
  due_date_day := dget "dueDateDay" data;
  type := dget "type" data;
  status := dget_default "status" (JStr "active") data;
  is_foreclosed := dget_default "isForeclosed" (JBool false) data
|}.

(** The column defaults, which an [INSERT] applies to the columns that hold
    [None]: [initial_paid_months] 0, [status] ['active'], [is_foreclosed]
    [False]. *)
Definition insert_defaults (self : t) : t := {|
  user_id := user_id self;
  name := name self;
  lender := lender self;
  principal := principal self;
  interest_rate := interest_rate self;
  start_date := start_date self;
  emi_amount := emi_amount self;
  tenure_months := tenure_months self;
  initial_paid_months :=
    if is_null (initial_paid_months self) then JInt 0 else initial_paid_months self;
  due_date_day := due_date_day self;
  type := type self;
  status := if is_null (status self) then JStr "active" else status self;
  is_foreclosed :=
    if is_null (is_foreclosed self) then JBool false else is_foreclosed self
|}.
End Loan.

Module Transaction.
Record t : Type := mk {
  user_id : option string;
  date : option date;
  amount : json;
  type : json;
  category : json;
  description : json
}.

Definition to_dict (id : json) (self : t) : json :=
  dict [ ("id", id);
         ("date", iso_or_none (date self));
         ("amount", amount self);
         ("type", type self);
         ("category", category self);
         ("description", description self) ].

(** [nullable=False] on [user_id], [date], [amount] and [type]. *)
Definition not_null (self : t) : bool :=
  bool_decide (is_Some (user_id self)) && bool_decide (is_Some (date self))
  && negb (is_null (amount self)) && negb (is_null (type self)).
End Transaction.

(** ** The store *)

Record db : Type := Db {
  enforce_fk : bool;
  loans : gmap string Loan.t;
  payments : gmap string Payment.t;
  transactions : gmap string Transaction.t
}.

Definition set_loans (st : db) (tbl : gmap string Loan.t) : db :=
  Db (enforce_fk st) tbl (payments st) (transactions st).

Definition set_payments (st : db) (tbl : gmap string Payment.t) : db :=
  Db (enforce_fk st) (loans st) tbl (transactions st).

Definition set_transactions (st : db) (tbl : gmap string Transaction.t) : db :=
  Db (enforce_fk st) (loans st) (payments st) tbl.

(** [INSERT INTO loans]: the row is written with its column defaults. *)
Definition insert_loan (st : db) (id : string) (row : Loan.t) : res db :=
  _ ← guard_db (bool_decide (loans st !! id = None)) IntegrityError;
  let row := Loan.insert_defaults row in
  _ ← guard_db (Loan.not_null row) IntegrityError;
  mret (set_loans st (<[id := row]> (loans st))).

(** [UPDATE loans SET name = ..., ... WHERE id = ...] of a row that was
    loaded: the columns written are those [save_loan] assigns, of which
    [name] and [principal] are [nullable=False]. *)
Definition update_loan (st : db) (id : string) (row : Loan.t) : res db :=
  _ ← guard_db (negb (is_null (Loan.name row)) && negb (is_null (Loan.principal row)))
        IntegrityError;
  mret (set_loans st (<[id := row]> (loans st))).

(** [session.delete(loan)]: the cascade deletes the loan's payments, then
    the loan. *)
Definition delete_loan_cascade (st : db) (id : string) : db :=
  Db (enforce_fk st)
     (delete id (loans st))
     (filter (fun p => Payment.loan_id p.2 ≠ Some id) (payments st))
     (transactions st).

(** The foreign key [payments.loan_id -> loans.id], where it is enforced. *)
Definition fk_ok (st : db) (row : Payment.t) : bool :=
  negb (enforce_fk st) ||
  match Payment.loan_id row with
  | Some l => bool_decide (is_Some (loans st !! l))
  | None => true
  end.

(** [INSERT INTO payments]. *)
Definition insert_payment (st : db) (id : string) (row : Payment.t) : res db :=
  _ ← guard_db (bool_decide (payments st !! id = None)) IntegrityError;
  _ ← guard_db (Payment.not_null row) IntegrityError;
  _ ← guard_db (fk_ok st row) IntegrityError;
  mret (set_payments st (<[id := row]> (payments st))).

(** [session.merge(tx)]: the row with the key of [tx] takes every attribute
    of [tx] if there is one, and a row is inserted if not; without a key the
    row is new and its key is generated. *)
Definition merge_transaction (st : db) (k : option string) (uuid4 : string)
    (row : Transaction.t) : res db :=
  _ ← guard_db (Transaction.not_null row) IntegrityError;
  match k with
  | Some id => mret (set_transactions st (<[id := row]> (transactions st)))
  | None =>
      _ ← guard_db (bool_decide (transactions st !! uuid4 = None)) IntegrityError;
      mret (set_transactions st (<[uuid4 := row]> (transactions st)))
  end.

(** A request ends with the reply of the handler and the store it
    committed, or with an exception and the store as it was: an exception
    raised before the commit discards the session, and with an [id] that is
    a string or absent nothing raises between the commit and the reply. *)
Definition respond (st : db) (r : res (db * (Z * json))) : db * outcome :=
  match r with
  | Ok (st', (status, body)) => (st', Reply status body)
  | Raise e => (st, Uncaught e)
  end.

(** [request.json] is any JSON value; [.get] exists on a dict only. *)
Definition as_dict (body : json) : res (gmap string json) :=
  match body with
  | JObj data => Ok data
  | _ => Raise AttributeError
  end.

(** The key a [String] key column is given: a string, or nothing.  What the
    code does with another value depends on the driver; the model raises. *)
Definition string_key (v : json) : res (option string) :=
  match as_key v with
  | KNone => Ok None
  | KStr s => Ok (Some s)
  | KBad => Raise DBAPIError
  end.

(** [datetime.strptime(v, '%Y-%m-%d').date()] *)
Definition parse_date (v : json) : res date :=
  match v with
  | JStr s =>
      match strptime s with
      | Some d => Ok d
      | None => Raise ValueError
      end
  | _ => Raise TypeError
  end.

(** [datetime.strptime(v.split('T')[0], '%Y-%m-%d').date()] *)
Definition parse_date_T (v : json) : res date :=
  match v with
  | JStr s => parse_date (JStr (split_T_0 s))
  | _ => Raise AttributeError
  end.

(** [not user_id] for the value of [request.args.get('userId')]. *)
Definition falsy (user_id : option string) : bool :=
  match user_id with
  | None => true
  | Some s => bool_decide (s = "")
  end.

(** ** The routes *)

Definition ok (body : json) : Z * json := (200, body).

(** [GET /api/sync] *)
Definition get_user_data (st : db) (user_id : option string) : db * outcome :=
  if falsy user_id then
    (st, Reply 400 (dict [("error", JStr "User ID required")]))
  else
    let loans := filter (fun l => Loan.user_id l.2 = user_id) (map_to_list (loans st)) in
    let transactions :=
      filter (fun t => Transaction.user_id t.2 = user_id) (map_to_list (transactions st)) in
    (st, Reply 200 (dict [
      ("loans", JArr ((fun l => Loan.to_dict (payments st) l.1 l.2) <$> loans));
      ("transactions", JArr ((fun t => Transaction.to_dict (JStr t.1) t.2) <$> transactions))
    ])).

(** [POST /api/loans].  [uuid4] is what [str(uuid.uuid4())] returns when the
    column default is called for. *)
Definition save_loan (st : db) (user_id : option string) (body : json) (uuid4 : string)
    : db * outcome :=
  respond st (
    data ← as_dict body;
    (* Check if exists *)
    k ← string_key (dget "id" data);
    let found := k ≫= (fun id => loans st !! id) in
    let id := default uuid4 k in
    let loan := default (Loan.new user_id) found in
    (* Update fields *)
    start_date ← parse_date_T (dget "startDate" data);
    let loan := Loan.update_fields loan data start_date in
    (* Handle Payments nested in Loan: [if 'payments' in data: pass] *)
    st' ← (match found with
           | Some _ => update_loan st id loan
           | None => insert_loan st id loan
           end);
    (* after the commit [loan.to_dict()] reads the row back *)
    let loan := default loan (loans st' !! id) in
    mret (st', ok (Loan.to_dict (payments st') id loan))).

(** [DELETE /api/loans/<loan_id>] *)
Definition delete_loan (st : db) (loan_id : string) : db * outcome :=
  match loans st !! loan_id with
  | Some _ =>
      (delete_loan_cascade st loan_id,
       Reply 200 (dict [("message", JStr "Deleted successfully")]))
  | None => (st, Reply 404 (dict [("error", JStr "Loan not found")]))
  end.

(** [POST /api/payments] *)
Definition add_payment (st : db) (body : json) (uuid4 : string) : db * outcome :=
  respond st (
    data ← as_dict body;
    let loan_id := dget "loanId" data in
    date ← parse_date (dget "date" data);
    k ← string_key (dget "id" data);
    lk ← string_key loan_id;
    let id := default uuid4 k in
    let payment := {|
      Payment.loan_id := lk;
      Payment.date := Some date;
      Payment.amount := dget "amount" data;
      Payment.note := dget "note" data
    |} in
    st' ← insert_payment st id payment;
    (* Check if we need to close the loan: the loan is fetched and nothing
       is done with it *)
    let loan := lk ≫= (fun l => loans st' !! l) in
    mret (st', ok (Payment.to_dict (JStr id) payment))).

(** [POST /api/transactions].  The reply serialises [tx], the object built
    from the payload, not the row [merge] wrote. *)
Definition save_transaction (st : db) (user_id : option string) (body : json)
    (uuid4 : string) : db * outcome :=
  respond st (
    data ← as_dict body;
    date ← parse_date (dget "date" data);
    let tx := {|
      Transaction.user_id := user_id;
      Transaction.date := Some date;
      Transaction.amount := dget "amount" data;
      Transaction.type := dget "type" data;
      Transaction.category := dget "category" data;
      Transaction.description := dget "description" data
    |} in
    k ← string_key (dget "id" data);
    st' ← merge_transaction st k uuid4 tx;
    mret (st', ok (Transaction.to_dict (dget "id" data) tx))).

(** [DELETE /api/transactions/<tx_id>] *)
Definition delete_transaction (st : db) (tx_id : string) : db * outcome :=
  match transactions st !! tx_id with
  | Some _ =>
      (set_transactions st (delete tx_id (transactions st)),
       Reply 200 (dict [("message", JStr "Deleted")]))
  | None => (st, Reply 404 (dict [("error", JStr "Not found")]))
  end.

(** ** Reading a reply

    What a client finds in a reply: a member of an object, the items of an
    array. *)

Definition field (k : string) (v : json) : json :=
  match v with
  | JObj o => dget k o
  | _ => JNull
  end.

Definition items (v : json) : list json :=
  match v with
  | JArr l => l
  | _ => []
  end.

Definition body_of (o : outcome) : json :=
  match o with
  | Reply _ body => body
  | Uncaught _ => JNull
  end.

Definition status_of (o : outcome) : option Z :=
  match o with
  | Reply status _ => Some status
  | Uncaught _ => None
  end.

(** The ids of the loans, of the transactions and of the payments (embedded
    in their loans) that a sync reply shows. *)
Definition sync_loan_ids (body : json) : list json :=
  field "id" <$> items (field "loans" body).

Definition sync_transaction_ids (body : json) : list json :=
  field "id" <$> items (field "transactions" body).

Definition sync_payment_ids (body : json) : list json :=
  l ← items (field "loans" body);
  field "id" <$> items (field "payments" l).

(** An ISO 8601 calendar date, alone or followed by ['T'] and a time. *)
Definition date_time_text (d : date) (time : option string) : string :=
  match time with
  | Some t => (isoformat d ++ "T" ++ t)%string
  | None => isoformat d
  end.

(** The rows a table holds under an id. *)
Definition rows_with_id {A} (id : string) (tbl : gmap string A) : list (string * A) :=
  filter (fun r => r.1 = id) (map_to_list tbl).

(** The members of a loan payload that [save_loan] copies to a column: the
    name on the wire, what is written when the payload has no such member,
    and the column. *)
Definition loan_columns : list (string * json * (Loan.t -> json)) :=
  [ ("name", JNull, Loan.name);
    ("lender", JNull, Loan.lender);
    ("principal", JNull, Loan.principal);
    ("interestRate", JNull, Loan.interest_rate);
    ("emiAmount", JNull, Loan.emi_amount);
    ("tenureMonths", JNull, Loan.tenure_months);
    ("initialPaidMonths", JInt 0, Loan.initial_paid_months);
    ("dueDateDay", JNull, Loan.due_date_day);
    ("type", JNull, Loan.type);
    ("status", JStr "active", Loan.status);
    ("isForeclosed", JBool false, Loan.is_foreclosed) ].

(** *** Values of the column's type *)

Inductive coltype : Type :=
  | CString
  | CFloat
  | CInteger
  | CBoolean.

(** A string the databases hold: it has no NUL character. *)
Definition text_ok (s : string) : bool :=
  forallb (fun c => negb (Ascii.eqb c Ascii.zero)) (list_ascii_of_string s).

(** A finite double. *)
Definition float_ok (f : spec_float) : bool :=
  match f with
  | S754_zero _ => true
  | S754_finite _ _ _ => valid_binary 53 1024 f
  | _ => false
  end.

(** The values a column of a type takes as they are. *)
Definition typed (c : coltype) (v : json) : bool :=
  match v, c with
  | JNull, _ => true
  | JStr s, CString => text_ok s
  | JFloat f, CFloat => float_ok f
  | JInt z, CFloat => (- 2 ^ 53 <=? z) && (z <=? 2 ^ 53)
  | JInt z, CInteger => (- 2 ^ 31 <=? z) && (z <? 2 ^ 31)
  | JBool _, CBoolean => true
  | _, _ => false
  end.

Definition members_typed (cols : list (string * coltype)) (data : gmap string json)
    : bool :=
  forallb (fun c => typed c.2 (dget c.1 data)) cols.

(** The members of the payloads that go to a column, with the type of the
    column. *)
Definition loan_column_types : list (string * coltype) :=
  [ ("id", CString); ("name", CString); ("lender", CString); ("principal", CFloat);
    ("interestRate", CFloat); ("emiAmount", CFloat); ("tenureMonths", CInteger);
    ("initialPaidMonths", CInteger); ("dueDateDay", CInteger); ("type", CString);
    ("status", CString); ("isForeclosed", CBoolean) ].

Definition payment_column_types : list (string * coltype) :=
  [ ("id", CString); ("loanId", CString); ("amount", CFloat); ("note", CString) ].

Definition transaction_column_types : list (string * coltype) :=
  [ ("id", CString); ("amount", CFloat); ("type", CString); ("category", CString);
    ("description", CString) ].

Definition loan_payload_typed : gmap string json -> bool :=
  members_typed loan_column_types.

Definition payment_payload_typed : gmap string json -> bool :=
  members_typed payment_column_types.

Definition transaction_payload_typed : gmap string json -> bool :=
  members_typed transaction_column_types.

(** A [userId] that can be the owner of a row. *)
Definition user_ok (user_id : option string) : bool :=
  match user_id with
  | Some u => text_ok u
  | None => false
  end.

(** The payload does not give null for a column that has a default. *)
Definition defaults_not_null (data : gmap string json) : bool :=
  negb (is_null (dget_default "initialPaidMonths" (JInt 0) data))
  && negb (is_null (dget_default "status" (JStr "active") data))
  && negb (is_null (dget_default "isForeclosed" (JBool false) data)).

(** The body of a request has an [id] that is a string or null or has
    none. *)
Definition id_ok (body : json) : bool :=
  match body with
  | JObj data =>
      match as_key (dget "id" data) with
      | KBad => false
      | _ => true
      end
  | _ => true
  end.

(** A loan payload the handler and the store take: [startDate] is a string
    whose part before ['T'] is a date, and the two members that go to
    [nullable=False] columns, [name] and [principal], are there and not
    null. *)
Definition loan_payload_ok (data : gmap string json) : bool :=
  match parse_date_T (dget "startDate" data) with
  | Ok _ => negb (is_null (dget "name" data)) && negb (is_null (dget "principal" data))
  | Raise _ => false
  end.

(** A transaction payload the handler and the store take: [date] is a
    string that is a date, and [amount] and [type] are there and not
    null. *)
Definition transaction_payload_ok (data : gmap string json) : bool :=
  match parse_date (dget "date" data) with
  | Ok _ => negb (is_null (dget "amount" data)) && negb (is_null (dget "type" data))
  | Raise _ => false
  end.

(** A payment payload the handler and the store take, if its [id] is free
    and its [loanId] is allowed: [date] is a string that is a date and
    [amount] is there and not null. *)
Definition payment_payload_ok (data : gmap string json) : bool :=
  match parse_date (dget "date" data) with
  | Ok _ => negb (is_null (dget "amount" data))
  | Raise _ => false
  end.

(** ** The application: one request after another *)

(** The routes of the application with what each reads from the request:
    the [userId] query parameter, the JSON body, the id in the path.  A
    [POST] also carries what [uuid4] would return if it were called. *)
Inductive request : Type :=
  | GetSync (user_id : option string)
  | PostLoan (user_id : option string) (body : json) (uuid4 : string)
  | DeleteLoan (loan_id : string)
  | PostPayment (body : json) (uuid4 : string)
  | PostTransaction (user_id : option string) (body : json) (uuid4 : string)
  | DeleteTransaction (tx_id : string).

Definition handle (st : db) (r : request) : db * outcome :=
  match r with
  | GetSync user_id => get_user_data st user_id
  | PostLoan user_id body uuid4 => save_loan st user_id body uuid4
  | DeleteLoan loan_id => delete_loan st loan_id
  | PostPayment body uuid4 => add_payment st body uuid4
  | PostTransaction user_id body uuid4 => save_transaction st user_id body uuid4
  | DeleteTransaction tx_id => delete_transaction st tx_id
  end.

(** The store after a sequence of requests. *)
Definition run (st : db) (rs : list request) : db :=
  foldl (fun s r => (handle s r).1) st rs.

(** The body of the request, if it has one, has an [id] that is a string
    or null or has none. *)
Definition request_id_ok (r : request) : bool :=
  match r with
  | PostLoan _ body _ | PostPayment body _ | PostTransaction _ body _ => id_ok body
  | _ => true
  end.

(** Every payment is the payment of a loan that is there. *)
Definition payments_have_loans (st : db) : Prop :=
  map_Forall (fun _ p => exists l, Payment.loan_id p = Some l /\ is_Some (loans st !! l))
    (payments st).

(** A date attribute holds nothing or a date that exists. *)
Definition date_ok (x : option date) : bool :=
  match x with
  | Some d => valid_date d
  | None => true
  end.

(** Every row has its [nullable=False] columns filled and holds dates that
    exist. *)
Definition rows_ok (st : db) : Prop :=
  map_Forall (fun _ l => Loan.not_null l = true /\ date_ok (Loan.start_date l) = true)
    (loans st)
  /\ map_Forall (fun _ p => Payment.not_null p = true /\ date_ok (Payment.date p) = true)
       (payments st)
  /\ map_Forall (fun _ t => Transaction.not_null t = true
                           /\ date_ok (Transaction.date t) = true)
       (transactions st).

(** ** Sample requests and stores *)

Definition db_empty : db := Db true ∅ ∅ ∅.

Definition tx_march : json :=
  dict [ ("id", JStr "T1"); ("date", JStr "2024-03-15"); ("amount", JInt 250);
         ("type", JStr "expense"); ("category", JStr "food") ].

Definition tx_march_changed : gmap string json :=
  list_to_map [ ("id", JStr "T1"); ("date", JStr "2024-03-15"); ("amount", JInt 300);
                ("type", JStr "expense"); ("category", JStr "food") ].

Definition db_one_tx : db := (save_transaction db_empty (Some "A") tx_march "u0").1.

Definition loan_car_data : gmap string json :=
  list_to_map [ ("id", JStr "L1"); ("name", JStr "car"); ("lender", JStr "bank");
                ("principal", JInt 1000); ("startDate", JStr "2024-03-15T00:00:00Z");
                ("status", JStr "active") ].

Definition loan_car : json := JObj loan_car_data.

Definition db_one_loan : db := (save_loan db_empty (Some "A") loan_car "u0").1.

(** The loan of [db_one_loan] again, with another principal and without its
    [name], [lender] and [status]. *)
Definition loan_car_unnamed : json :=
  dict [ ("id", JStr "L1"); ("principal", JInt 2000); ("startDate", JStr "2024-03-15") ].

(** The same with a [name], and with a payment list. *)
Definition loan_car_renamed : gmap string json :=
  list_to_map [ ("id", JStr "L1"); ("name", JStr "van"); ("principal", JInt 2000);
                ("startDate", JStr "2024-03-15");
                ("payments", JArr [dict [("id", JStr "P9"); ("amount", JInt 5)]]) ].

Definition payment_april : json :=
  dict [ ("id", JStr "P1"); ("loanId", JStr "L1"); ("date", JStr "2024-04-15");
         ("amount", JInt 1000); ("note", JStr "paid in full") ].

(** The loan of user ["A"] with a payment of its whole principal. *)
Definition db_paid_loan : db := (add_payment db_one_loan payment_april "u2").1.

(** A session: user ["A"] saves a loan, pays it, then deletes it; a payment
    for a loan that is not there and a loan without a name are sent too. *)
Definition payment_orphan : json :=
  dict [ ("id", JStr "P2"); ("loanId", JStr "L7"); ("date", JStr "2024-04-15");
         ("amount", JInt 10) ].

Definition session : list request :=
  [ PostLoan (Some "A") loan_car "u0";
    PostPayment payment_orphan "u1";
    PostPayment payment_april "u2";
    PostLoan (Some "B") loan_car_unnamed "u3";
    PostTransaction (Some "A") tx_march "u4";
    GetSync (Some "A");
    DeleteLoan "L1" ].

Definition payment_april_data : gmap string json :=
  list_to_map [ ("id", JStr "P1"); ("loanId", JStr "L1"); ("date", JStr "2024-04-15");
                ("amount", JInt 1000); ("note", JStr "paid in full") ].

Definition payment_orphan_data : gmap string json :=
  list_to_map [ ("id", JStr "P2"); ("loanId", JStr "L7"); ("date", JStr "2024-04-15");
                ("amount", JInt 10) ].

(** The store of [db_one_loan] in a database that does not enforce foreign
    keys. *)
Definition db_one_loan_no_fk : db :=
  (save_loan (Db false ∅ ∅ ∅) (Some "A") loan_car "u0").1.

(** A transaction and a loan sent without an id. *)
Definition tx_no_id : gmap string json :=
  list_to_map [ ("date", JStr "2024-03-15"); ("amount", JInt 250); ("type", JStr "expense") ].

Definition loan_no_id : gmap string json :=
  list_to_map [ ("name", JStr "car"); ("principal", JInt 1000);
                ("startDate", JStr "2024-03-15") ].


Definition tx_with_time : gmap string json :=
  list_to_map [ ("id", JStr "T2"); ("loanId", JStr "L1");
                ("date", JStr "2024-03-15T00:00:00Z");
                ("amount", JInt 250); ("type", JStr "expense") ].

(** A transaction without a date; a loan with a null [status]; a loan whose
    [startDate] is in the basic format of ISO 8601. *)
Definition tx_undated : json :=
  dict [ ("id", JStr "T9"); ("amount", JInt 250); ("type", JStr "expense") ].

Definition loan_null_status : json :=
  dict [ ("id", JStr "L9"); ("name", JStr "car"); ("principal", JInt 1000);
         ("startDate", JStr "2024-03-15"); ("status", JNull) ].

Definition db_null_status : db :=
  (save_loan db_empty (Some "A") loan_null_status "u1").1.

Definition loan_basic_format : json :=
  dict [ ("id", JStr "L1"); ("name", JStr "car"); ("principal", JInt 1000);
         ("startDate", JStr "20240315T000000Z") ].

(** * Properties *)

(** ** Dates *)

Section Dates.

Lemma digit_cases (a : Z) :
  0 <= a <= 9 ->
  a = 0 \/ a = 1 \/ a = 2 \/ a = 3 \/ a = 4 \/ a = 5 \/ a = 6 \/ a = 7 \/ a = 8 \/ a = 9.
Proof. lia. Qed.

Ltac each_digit a H :=
  destruct (digit_cases a H) as [->|[->|[->|[->|[->|[->|[->|[->|[->| ->]]]]]]]]].

Lemma digit_val_digit_char (a : Z) :
  0 <= a <= 9 -> Re.digit_val (digit_char a) = Some a.
Proof. intros H. each_digit a H; reflexivity. Qed.

Lemma digit_char_not_T (a : Z) :
  0 <= a <= 9 -> Ascii.eqb (digit_char a) "T" = false.
Proof. intros H. each_digit a H; reflexivity. Qed.

Lemma cls_digit_char (a : Z) (r : string) :
  0 <= a <= 9 -> Re.cls 0 9 (String (digit_char a) r) = [(a, r)].
Proof.
  intros H. unfold Re.cls. rewrite digit_val_digit_char by exact H.
  replace ((0 <=? a) && (a <=? 9)) with true; [reflexivity|].
  symmetry. apply andb_true_intro. split; apply Z.leb_le; lia.
Qed.

(** Four digits read back as the number they spell. *)
Lemma Y_fmt04 (y : Z) (r : string) :
  0 <= y <= 9999 -> Re.Y (fmt04 y ++ r)%string = [(y, r)].
Proof.
  intros H. unfold fmt04, Re.Y, Re.two, Re.seq.
  cbv beta iota fix delta [String.append].
  assert (H3 : 0 <= y / 1000 <= 9) by (Z.to_euclidean_division_equations; lia).
  assert (H2 : 0 <= y / 100 mod 10 <= 9) by (Z.to_euclidean_division_equations; lia).
  assert (H1 : 0 <= y / 10 mod 10 <= 9) by (Z.to_euclidean_division_equations; lia).
  assert (H0 : 0 <= y mod 10 <= 9) by (Z.to_euclidean_division_equations; lia).
  rewrite (cls_digit_char _ _ H3). cbn [mbind list_bind List.app app].
  rewrite (cls_digit_char _ _ H2). cbn [mbind list_bind List.app app].
  rewrite (cls_digit_char _ _ H1). cbn [mbind list_bind List.app app].
  rewrite (cls_digit_char _ _ H0). cbn [mbind list_bind List.app app].
  do 2 f_equal.
  Z.to_euclidean_division_equations; lia.
Qed.

Lemma md_check_all :
  forallb (fun mo => forallb (md_check mo) (seqZ 1 31)) (seqZ 1 12) = true.
Proof. vm_compute. reflexivity. Qed.

Lemma md_fmt02 (mo dy : Z) :
  1 <= mo <= 12 -> 1 <= dy <= 31 ->
  exists l, Re.md ("-" ++ fmt02 mo ++ "-" ++ fmt02 dy)%string = ((mo, dy), EmptyString) :: l.
Proof.
  intros Hm Hd.
  pose proof md_check_all as Hall.
  rewrite forallb_forall in Hall.
  specialize (Hall mo). rewrite forallb_forall in Hall.
  assert (Hc : md_check mo dy = true).
  { apply Hall; apply list_elem_of_In, elem_of_seqZ; lia. }
  unfold md_check in Hc.
  destruct (Re.md _) as [|[[mo' dy'] [|c rest]] l]; try discriminate.
  apply andb_prop in Hc as [H1 H2].
  apply Z.eqb_eq in H1, H2. subst. eauto.
Qed.

Lemma valid_date_bounds (dt : date) :
  valid_date dt = true ->
  1 <= year dt <= 9999 /\ 1 <= month dt <= 12 /\ 1 <= day dt <= 31.
Proof.
  unfold valid_date. rewrite !andb_true_iff, !Z.leb_le.
  intros [[[[[? ?] ?] ?] ?] Hd]. repeat split; try assumption.
  revert Hd. unfold days_in_month.
  repeat match goal with |- context [if ?b then _ else _] => destruct b end; lia.
Qed.

(** The first match of a sequence whose head matches in one way only. *)
Lemma seq_first {A B C} (f : A -> B -> C) (p : Re.t A) (q : Re.t B)
    (s r r' : string) (a : A) (b : B) (l : list (B * string)) :
  p s = [(a, r)] -> q r = (b, r') :: l ->
  exists l', Re.seq f p q s = (f a b, r') :: l'.
Proof.
  intros Hp Hq. unfold Re.seq. rewrite Hp. cbn. rewrite Hq. cbn. eauto.
Qed.

(** A date that exists, written by [isoformat], is read back by
    [strptime] with the format ['%Y-%m-%d']. *)
Lemma strptime_isoformat (dt : date) :
  valid_date dt = true -> strptime (isoformat dt) = Some dt.
Proof.
  intros Hv. destruct (valid_date_bounds dt Hv) as (Hy & Hm & Hd).
  destruct dt as [y mo dy]; cbn [year month day] in *.
  unfold strptime, isoformat, Re.Ymd. cbn [year month day].
  destruct (md_fmt02 mo dy Hm Hd) as [l Hmd].
  destruct (seq_first (fun y x => Date y (fst x) (snd x)) Re.Y Re.md
              _ _ _ _ _ _ (Y_fmt04 y _ ltac:(lia)) Hmd) as [l' ->].
  cbn [fst snd]. rewrite Hv. reflexivity.
Qed.

(** The text [isoformat] writes has no ['T'] in it, so [split('T')[0]]
    of a date followed by ['T'] and a time is the date. *)
Lemma split_T_0_isoformat (dt : date) (time : string) :
  valid_date dt = true ->
  split_T_0 (isoformat dt ++ "T" ++ time)%string = isoformat dt.
Proof.
  intros Hv. destruct (valid_date_bounds dt Hv) as (Hy & Hm & Hd).
  destruct dt as [y mo dy]; cbn [year month day] in *.
  unfold isoformat, fmt04, fmt02. cbn [year month day].
  cbv beta iota fix delta [String.append].
  cbn [split_T_0].
  rewrite !digit_char_not_T by (Z.to_euclidean_division_equations; lia).
  reflexivity.
Qed.

Lemma split_T_0_isoformat_alone (dt : date) :
  valid_date dt = true -> split_T_0 (isoformat dt) = isoformat dt.
Proof.
  intros Hv. destruct (valid_date_bounds dt Hv) as (Hy & Hm & Hd).
  destruct dt as [y mo dy]; cbn [year month day] in *.
  unfold isoformat, fmt04, fmt02. cbn [year month day].
  cbv beta iota fix delta [String.append].
  cbn [split_T_0].
  rewrite !digit_char_not_T by (Z.to_euclidean_division_equations; lia).
  reflexivity.
Qed.

Lemma parse_date_T_text (dt : date) (time : option string) :
  valid_date dt = true -> parse_date_T (JStr (date_time_text dt time)) = Ok dt.
Proof.
  intros Hv. unfold parse_date_T, parse_date, date_time_text.
  destruct time as [t|].
  - rewrite split_T_0_isoformat, strptime_isoformat by assumption. reflexivity.
  - rewrite split_T_0_isoformat_alone, strptime_isoformat by assumption. reflexivity.
Qed.

Lemma isoformat_length (dt : date) : String.length (isoformat dt) = 10%nat.
Proof. destruct dt. reflexivity. Qed.

End Dates.

(** ** Reading the dicts the models serialise to *)

Section Dicts.

Lemma loan_dict_id tbl i (l : Loan.t) : field "id" (Loan.to_dict tbl i l) = JStr i.
Proof. reflexivity. Qed.

Lemma loan_dict_startDate tbl i (l : Loan.t) :
  field "startDate" (Loan.to_dict tbl i l) = iso_or_none (Loan.start_date l).
Proof. reflexivity. Qed.

Lemma loan_dict_payments tbl i (l : Loan.t) :
  items (field "payments" (Loan.to_dict tbl i l))
  = (fun p => Payment.to_dict (JStr p.1) p.2) <$> Loan.payments tbl i.
Proof. reflexivity. Qed.

Lemma payment_dict_id v (p : Payment.t) : field "id" (Payment.to_dict v p) = v.
Proof. reflexivity. Qed.

Lemma transaction_dict_id v (t : Transaction.t) :
  field "id" (Transaction.to_dict v t) = v.
Proof. reflexivity. Qed.

End Dicts.

(** ** Sync without a user *)

(** C6.  A sync request without a [userId] parameter is answered with status
    400 and a body that holds an error message only: it has no [loans] and
    no [transactions] member, it is the same whatever the store holds, and
    the store is left as it was. *)
Theorem sync_missing_user_id (st : db) :
  get_user_data st None = (st, Reply 400 (dict [("error", JStr "User ID required")]))
  /\ field "loans" (body_of (get_user_data st None).2) = JNull
  /\ field "transactions" (body_of (get_user_data st None).2) = JNull
  /\ items (field "loans" (body_of (get_user_data st None).2)) = []
  /\ forall st' : db, (get_user_data st' None).2 = (get_user_data st None).2.
Proof.
  repeat split; reflexivity.
Qed.

(** ** Deleting *)


(** ** Adding a payment *)

(** C9.  Whatever the store holds and whatever the payload is, adding a
    payment leaves the loans table (every column of every loan, [status] and
    [is_foreclosed] among them) and the transactions table as they were, and
    the payments table is either as it was or the former one with one row
    inserted under a key that was free; it is the latter when the request is
    answered. *)
Theorem add_payment_frame (st : db) (body : json) (uuid4 : string) :
  loans (add_payment st body uuid4).1 = loans st
  /\ transactions (add_payment st body uuid4).1 = transactions st
  /\ (payments (add_payment st body uuid4).1 = payments st
      \/ exists pid p,
           payments st !! pid = None
           /\ payments (add_payment st body uuid4).1 = <[pid := p]> (payments st))
  /\ match (add_payment st body uuid4).2 with
     | Reply _ _ =>
         exists pid p,
           payments st !! pid = None
           /\ payments (add_payment st body uuid4).1 = <[pid := p]> (payments st)
     | Uncaught _ => True
     end.
Proof.
  unfold add_payment.
  destruct (as_dict body) as [data|e]; cbn; [|auto].
  destruct (parse_date _) as [d|e]; cbn; [|auto].
  destruct (string_key (dget "id" data)) as [k|e]; cbn; [|auto].
  destruct (string_key (dget "loanId" data)) as [lk|e]; cbn; [|auto].
  unfold insert_payment.
  destruct (bool_decide (payments st !! default uuid4 k = None)) eqn:Hfree; cbn; [|auto].
  destruct (Payment.not_null _); cbn; [|auto].
  destruct (fk_ok _ _); cbn; [|auto].
  apply bool_decide_eq_true in Hfree.
  repeat split; eauto.
Qed.

(** ** Tables *)

Section Tables.
Context {A : Type}.
Implicit Types (tbl : gmap string A) (id : string).

Lemma elem_of_rows_with_id id tbl (r : string * A) :
  r ∈ rows_with_id id tbl <-> r.1 = id /\ tbl !! id = Some r.2.
Proof.
  unfold rows_with_id. rewrite list_elem_of_filter. destruct r as [j x]; cbn.
  rewrite elem_of_map_to_list. split; intros [H1 H2]; subst; auto.
Qed.

(** A primary key names one row. *)
Lemma rows_with_id_lookup id tbl (x : A) :
  tbl !! id = Some x -> rows_with_id id tbl = [(id, x)].
Proof.
  intros Hx.
  assert (Hall : forall r, r ∈ rows_with_id id tbl -> r = (id, x)).
  { intros [j y] [Hj Hy]%elem_of_rows_with_id; cbn in *. congruence. }
  assert (Hin : (id, x) ∈ rows_with_id id tbl) by (apply elem_of_rows_with_id; auto).
  assert (Hnd : NoDup (rows_with_id id tbl)).
  { apply NoDup_filter, NoDup_map_to_list. }
  destruct (rows_with_id id tbl) as [|r [|r' l]].
  - inversion Hin.
  - f_equal. apply Hall. left.
  - exfalso. rewrite (Hall r) in Hnd by left.
    rewrite (Hall r') in Hnd by (right; left).
    apply NoDup_cons in Hnd as [Hnd _]. apply Hnd. left.
Qed.

Lemma rows_with_id_none id tbl : tbl !! id = None -> rows_with_id id tbl = [].
Proof.
  intros Hn. destruct (rows_with_id id tbl) as [|r l] eqn:E; [reflexivity|].
  assert (Hr : r ∈ rows_with_id id tbl) by (rewrite E; left).
  apply elem_of_rows_with_id in Hr as [_ Hr]. congruence.
Qed.

End Tables.

Lemma dget_lookup (k : string) (data : gmap string json) (v : json) :
  data !! k = Some v -> dget k data = v.
Proof. unfold dget. intros ->. reflexivity. Qed.

(** ** Upserting a transaction *)

(** What [save_transaction] does with a payload it takes. *)
Lemma save_transaction_accepts (st : db) (uid : string) (data : gmap string json)
    (i uuid4 : string) (d : date) :
  data !! "id" = Some (JStr i) ->
  parse_date (dget "date" data) = Ok d ->
  is_null (dget "amount" data) = false ->
  is_null (dget "type" data) = false ->
  save_transaction st (Some uid) (JObj data) uuid4 =
    let tx := Transaction.mk (Some uid) (Some d) (dget "amount" data) (dget "type" data)
                (dget "category" data) (dget "description" data) in
    (set_transactions st (<[i := tx]> (transactions st)),
     Reply 200 (Transaction.to_dict (JStr i) tx)).
Proof.
  intros Hid%dget_lookup Hd Ha Ht. unfold save_transaction. cbn.
  rewrite Hd. cbn. rewrite !Hid. cbn.
  unfold merge_transaction, Transaction.not_null. cbn.
  rewrite Ha, Ht. cbn. reflexivity.
Qed.

(** C2, as the code has it.  A transaction upsert that carries a [userId]
    and whose payload has a string id, a date that parses, and an amount,
    a type, a category and a description of their columns' types, the amount
    and the type not null, is answered with the serialised payload;
    afterwards the id names one row, it carries the values of the payload and
    is owned by the requesting user whoever owned it before, every other row
    is as it was, and the table has one more row if the id was new and as
    many as before if it was not. *)
Theorem transaction_upsert_replaces (st : db) (uid : string)
    (data : gmap string json) (i uuid4 : string) :
  data !! "id" = Some (JStr i) ->
  transaction_payload_ok data = true ->
  transaction_payload_typed data = true ->
  text_ok uid = true ->
  exists st' tx d,
    save_transaction st (Some uid) (JObj data) uuid4
      = (st', Reply 200 (Transaction.to_dict (JStr i) tx))
    /\ rows_with_id i (transactions st') = [(i, tx)]
    /\ Transaction.user_id tx = Some uid
    /\ parse_date (dget "date" data) = Ok d
    /\ Transaction.date tx = Some d
    /\ Transaction.amount tx = dget "amount" data
    /\ Transaction.type tx = dget "type" data
    /\ Transaction.category tx = dget "category" data
    /\ Transaction.description tx = dget "description" data
    /\ (forall j, j <> i -> transactions st' !! j = transactions st !! j)
    /\ size (transactions st')
       = match transactions st !! i with
         | Some _ => size (transactions st)
         | None => S (size (transactions st))
         end
    /\ loans st' = loans st
    /\ payments st' = payments st.
Proof.
  intros Hid Hok _ _. unfold transaction_payload_ok in Hok.
  destruct (parse_date (dget "date" data)) as [d|] eqn:Hd; [|discriminate].
  apply andb_prop in Hok as [Ha Ht]. apply negb_true_iff in Ha, Ht.
  eexists _, _, d. split.
  { apply (save_transaction_accepts st uid data i uuid4 d); assumption. }
  cbn. split.
  { apply rows_with_id_lookup, lookup_insert_eq. }
  do 7 (split; [reflexivity|]).
  split.
  { intros j Hj. apply lookup_insert_ne. congruence. }
  split; [|split; reflexivity].
  rewrite map_size_insert. destruct (transactions st !! i); reflexivity.
Qed.

Lemma transaction_upsert_replaces_witness :
  tx_march_changed !! "id" = Some (JStr "T1")
  /\ transaction_payload_ok tx_march_changed = true
  /\ transaction_payload_typed tx_march_changed = true
  /\ text_ok "B" = true
  /\ exists st' tx,
       save_transaction db_one_tx (Some "B") (JObj tx_march_changed) "u1"
         = (st', Reply 200 (Transaction.to_dict (JStr "T1") tx))
       /\ rows_with_id "T1" (transactions st') = [("T1", tx)]
       /\ Transaction.user_id tx = Some "B"
       /\ Transaction.amount tx = JInt 300
       /\ size (transactions st') = 1%nat.
Proof.
  do 4 (split; [reflexivity|]).
  destruct (transaction_upsert_replaces db_one_tx "B" tx_march_changed "T1" "u1")
    as (st' & tx & d & H1 & H2 & H3 & _ & _ & H6 & _ & _ & _ & _ & H11 & _);
    [reflexivity..|].
  exists st', tx. repeat split; assumption.
Defined.

(** C2, as stated, fails: the payload has an id and no [date]; [strptime]
    raises on [None], and no transaction is inserted under the id. *)
Lemma transaction_upsert_undated_rejected :
  transactions db_empty !! "T9" = None
  /\ save_transaction db_empty (Some "A") tx_undated "u0" = (db_empty, Uncaught TypeError)
  /\ transactions (save_transaction db_empty (Some "A") tx_undated "u0").1 !! "T9" = None.
Proof. repeat split; vm_compute; reflexivity. Qed.

(** ** Upserting a loan *)

(** What [save_loan] does with a payload it takes: the loan found under the
    id has its fields assigned, or a new loan of the requesting user is made
    and gets the column defaults, and it is written and read back. *)
Lemma save_loan_accepts (st : db) (uid : option string) (data : gmap string json)
    (i uuid4 : string) (d : date) :
  data !! "id" = Some (JStr i) ->
  parse_date_T (dget "startDate" data) = Ok d ->
  is_null (dget "name" data) = false ->
  is_null (dget "principal" data) = false ->
  (loans st !! i = None -> is_Some uid) ->
  save_loan st uid (JObj data) uuid4 =
    let loan :=
      match loans st !! i with
      | Some old => Loan.update_fields old data d
      | None => Loan.insert_defaults (Loan.update_fields (Loan.new uid) data d)
      end in
    (set_loans st (<[i := loan]> (loans st)),
     Reply 200 (Loan.to_dict (payments st) i loan)).
Proof.
  intros Hid%dget_lookup Hd Hn Hp Hu. unfold save_loan. cbn.
  rewrite !Hid. cbn. rewrite Hd. cbn.
  destruct (loans st !! i) as [old|] eqn:Hi; cbn.
  - unfold update_loan. cbn. rewrite Hn, Hp. cbn.
    rewrite lookup_insert_eq. reflexivity.
  - unfold insert_loan, Loan.not_null. cbn. rewrite Hn, Hp.
    rewrite (bool_decide_eq_true_2 _ Hi).
    rewrite (bool_decide_eq_true_2 _ (Hu eq_refl)). cbn.
    rewrite lookup_insert_eq. reflexivity.
Qed.

Lemma user_ok_is_Some (uid : option string) : user_ok uid = true -> is_Some uid.
Proof. destruct uid; [eauto|discriminate]. Qed.

Lemma loan_payload_ok_inv (data : gmap string json) :
  loan_payload_ok data = true ->
  exists d, parse_date_T (dget "startDate" data) = Ok d
            /\ is_null (dget "name" data) = false
            /\ is_null (dget "principal" data) = false.
Proof.
  unfold loan_payload_ok. destruct (parse_date_T _) as [d|]; [|discriminate].
  intros [Hn Hp]%andb_prop. apply negb_true_iff in Hn, Hp. eauto.
Qed.

(** The [payments] member of the payload is not looked at. *)
Lemma save_loan_ignores_payments (st : db) (uid : option string)
    (data : gmap string json) (v : json) (uuid4 : string) :
  save_loan st uid (JObj (<["payments" := v]> data)) uuid4
  = save_loan st uid (JObj data) uuid4.
Proof.
  unfold save_loan, Loan.update_fields, dget, dget_default. cbn.
  rewrite !lookup_insert_ne by done. reflexivity.
Qed.

(** A request that fails leaves the store as it was. *)
Lemma respond_uncaught (st : db) (r : res (db * (Z * json))) (e : exn) :
  (respond st r).2 = Uncaught e -> (respond st r).1 = st.
Proof. destruct r as [[st' [status body]]|e']; cbn; [discriminate|reflexivity]. Qed.

(** With an id in the payload no key is generated. *)
Lemma save_loan_uuid4_unused (st : db) (uid : option string)
    (data : gmap string json) (i u1 u2 : string) :
  data !! "id" = Some (JStr i) ->
  save_loan st uid (JObj data) u1 = save_loan st uid (JObj data) u2.
Proof.
  intros Hid%dget_lookup. unfold save_loan. cbn. rewrite !Hid. reflexivity.
Qed.

(** [save_loan] answers only a payload it takes. *)
Lemma save_loan_reply_inv (st : db) (uid : option string)
    (data : gmap string json) (i uuid4 : string) (status : Z) (body : json) :
  data !! "id" = Some (JStr i) ->
  (save_loan st uid (JObj data) uuid4).2 = Reply status body ->
  loan_payload_ok data = true /\ (loans st !! i = None -> is_Some uid).
Proof.
  intros Hid%dget_lookup. unfold save_loan, loan_payload_ok. cbn.
  rewrite !Hid. cbn.
  destruct (parse_date_T _) as [d|e]; cbn; [|discriminate].
  destruct (loans st !! i) as [old|]; cbn.
  - unfold update_loan. cbn.
    destruct (negb _ && negb _); cbn; [|discriminate]. intros _. split; [reflexivity|done].
  - unfold insert_loan, Loan.not_null. cbn.
    destruct uid as [u|]; cbn.
    + destruct (negb _ && negb _); cbn; [|destruct (bool_decide _); discriminate].
      intros _. split; [reflexivity|eauto].
    + destruct (bool_decide _); discriminate.
Qed.

(** C1, as the code has it.  A loan upsert whose payload has a string id, a
    [startDate] that parses, a [name] and a [principal], and members of
    their columns' types is answered with the serialised loan and its
    payment list as stored.  The loan is written under the id: a new one
    belongs to the requesting user, an existing one keeps its owner; every
    column of [loan_columns] holds the member of the payload, or the default
    of the column when the payload has no such member, whatever it held
    before (a null given for a column that has a default is written as null
    to an existing loan and as the default to a new one); [start_date] holds
    the parsed date.  No other loan, no payment and no transaction changes,
    and a [payments] member of the payload makes no difference. *)
Theorem loan_upsert_overwrites (st : db) (uid : option string)
    (data : gmap string json) (i uuid4 : string) :
  data !! "id" = Some (JStr i) ->
  loan_payload_ok data = true ->
  loan_payload_typed data = true ->
  (loans st !! i = None -> user_ok uid = true) ->
  exists st' loan d,
    save_loan st uid (JObj data) uuid4
      = (st', Reply 200 (Loan.to_dict (payments st) i loan))
    /\ loans st' = <[i := loan]> (loans st)
    /\ Loan.user_id loan
       = match loans st !! i with
         | Some old => Loan.user_id old
         | None => uid
         end
    /\ parse_date_T (dget "startDate" data) = Ok d
    /\ Loan.start_date loan = Some d
    /\ Forall (fun c =>
                 c.2 loan
                 = let v := default c.1.2 (data !! c.1.1) in
                   match loans st !! i with
                   | Some _ => v
                   | None => if is_null v then c.1.2 else v
                   end) loan_columns
    /\ payments st' = payments st
    /\ transactions st' = transactions st
    /\ forall v, save_loan st uid (JObj (<["payments" := v]> data)) uuid4
                 = save_loan st uid (JObj data) uuid4.
Proof.
  intros Hid Hok _ Hu.
  destruct (loan_payload_ok_inv data Hok) as (d & Hd & Hn & Hp).
  eexists _, _, d. split.
  { apply (save_loan_accepts st uid data i uuid4 d); try assumption.
    intros Hnew. apply user_ok_is_Some, Hu, Hnew. }
  cbn. split; [reflexivity|]. split.
  { destruct (loans st !! i); reflexivity. }
  split; [assumption|]. split.
  { destruct (loans st !! i); reflexivity. }
  split.
  { unfold loan_columns, dget in Hn, Hp |- *.
    destruct (loans st !! i); repeat constructor; cbn;
      try rewrite Hn; try rewrite Hp;
      try match goal with |- context [is_null ?v] => destruct (is_null v) eqn:? end;
      try reflexivity;
      unfold dget;
      match goal with
      | H : is_null ?v = true |- ?v = JNull => destruct v; try discriminate; reflexivity
      end. }
  split; [reflexivity|]. split; [reflexivity|].
  intros v. apply save_loan_ignores_payments.
Qed.

Lemma loan_upsert_overwrites_witness :
  loan_car_renamed !! "id" = Some (JStr "L1")
  /\ loan_payload_ok loan_car_renamed = true
  /\ loan_payload_typed loan_car_renamed = true
  /\ (loans db_one_loan !! "L1" = None -> user_ok (Some "B") = true)
  /\ exists st' loan,
       save_loan db_one_loan (Some "B") (JObj loan_car_renamed) "u1"
         = (st', Reply 200 (Loan.to_dict (payments db_one_loan) "L1" loan))
       /\ loans st' = <[ "L1" := loan ]> (loans db_one_loan)
       /\ Loan.user_id loan = Some "A"
       /\ Loan.name loan = JStr "van"
       /\ Loan.lender loan = JNull
       /\ Loan.status loan = JStr "active"
       /\ payments st' = payments db_one_loan.
Proof.
  do 3 (split; [reflexivity|]). split; [reflexivity|].
  destruct (loan_upsert_overwrites db_one_loan (Some "B") loan_car_renamed "L1" "u1")
    as (st' & loan & d & H1 & H2 & H3 & _ & _ & H6 & H7 & _);
    [reflexivity..|].
  exists st', loan.
  split; [exact H1|]. split; [exact H2|]. split; [exact H3|].
  unfold loan_columns in H6. rewrite !Forall_cons in H6.
  destruct H6 as (Hname & Hlender & _ & _ & _ & _ & _ & _ & _ & Hstatus & _).
  split; [exact Hname|]. split; [exact Hlender|]. split; [exact Hstatus|]. exact H7.
Defined.

(** C1, as stated, fails: the loan ["L1"] exists, the payload names it and
    has no [name]; the store refuses the null [name], so the request fails,
    nothing is overwritten (the loan keeps its name, its lender and its
    principal) and no loan is sent back. *)
Lemma loan_upsert_unnamed_rejected :
  Loan.name <$> loans db_one_loan !! "L1" = Some (JStr "car")
  /\ save_loan db_one_loan (Some "A") loan_car_unnamed "u1"
     = (db_one_loan, Uncaught IntegrityError)
  /\ Loan.name <$> loans (save_loan db_one_loan (Some "A") loan_car_unnamed "u1").1 !! "L1"
     = Some (JStr "car")
  /\ Loan.principal <$> loans (save_loan db_one_loan (Some "A") loan_car_unnamed "u1").1 !! "L1"
     = Some (JInt 1000).
Proof.
  repeat split; vm_compute; reflexivity.
Qed.

(** C10.  A loan upsert that names an existing loan leaves the loan with the
    owner it had, whatever [userId] the request carries and whether or not
    the request goes through; when the payload is taken (it has a date, a
    name and a principal, and members of their columns' types), the loan is
    rewritten from the payload and still has that owner. *)
Theorem loan_upsert_keeps_owner (st : db) (uid : option string)
    (data : gmap string json) (i uuid4 : string) (old : Loan.t) :
  data !! "id" = Some (JStr i) ->
  loans st !! i = Some old ->
  (exists loan,
     loans (save_loan st uid (JObj data) uuid4).1 !! i = Some loan
     /\ Loan.user_id loan = Loan.user_id old)
  /\ (loan_payload_ok data = true ->
      loan_payload_typed data = true ->
       exists st' loan,
         save_loan st uid (JObj data) uuid4
           = (st', Reply 200 (Loan.to_dict (payments st) i loan))
         /\ loans st' !! i = Some loan
         /\ Loan.name loan = dget "name" data
         /\ Loan.user_id loan = Loan.user_id old).
Proof.
  intros Hid Hold. split.
  - pose proof (dget_lookup _ _ _ Hid) as Hid'.
    unfold save_loan. cbn. rewrite !Hid'. cbn. rewrite Hold. cbn.
    destruct (parse_date_T _) as [d|e]; cbn; [|eauto].
    unfold update_loan. destruct (negb _ && negb _); cbn; [|eauto].
    rewrite lookup_insert_eq. eauto.
  - intros Hok _. destruct (loan_payload_ok_inv data Hok) as (d & Hd & Hn & Hp).
    eexists _, _. split.
    { apply (save_loan_accepts st uid data i uuid4 d); try assumption.
      intros H. congruence. }
    cbn. rewrite lookup_insert_eq, Hold. auto.
Qed.

Lemma loan_upsert_keeps_owner_witness :
  loan_car_renamed !! "id" = Some (JStr "L1")
  /\ Loan.user_id <$> loans db_one_loan !! "L1" = Some (Some "A")
  /\ loan_payload_ok loan_car_renamed = true
  /\ loan_payload_typed loan_car_renamed = true
  /\ exists st' loan,
       save_loan db_one_loan (Some "B") (JObj loan_car_renamed) "u1"
         = (st', Reply 200 (Loan.to_dict (payments db_one_loan) "L1" loan))
       /\ loans st' !! "L1" = Some loan
       /\ Loan.name loan = JStr "van"
       /\ Loan.user_id loan = Some "A".
Proof.
  do 4 (split; [reflexivity|]).
  destruct (loans db_one_loan !! "L1") as [old|] eqn:Hold; [|discriminate].
  assert (Hown : Loan.user_id old = Some "A").
  { assert (H : Loan.user_id <$> loans db_one_loan !! "L1" = Some (Some "A")) by reflexivity.
    rewrite Hold in H. cbn in H. congruence. }
  destruct (loan_upsert_keeps_owner db_one_loan (Some "B") loan_car_renamed "L1" "u1" old)
    as [_ H]; [reflexivity|exact Hold|].
  destruct (H eq_refl eq_refl) as (st' & loan & H1 & H2 & H3 & H4).
  exists st', loan. rewrite <- Hown. auto.
Defined.

(** A payload that gives no null for a column with a default is inserted as
    it is assigned. *)
Lemma insert_defaults_update_fields (l : Loan.t) (data : gmap string json) (d : date) :
  defaults_not_null data = true ->
  Loan.insert_defaults (Loan.update_fields l data d) = Loan.update_fields l data d.
Proof.
  unfold defaults_not_null. rewrite !andb_true_iff, !negb_true_iff.
  intros [[H1 H2] H3]. unfold Loan.insert_defaults. cbn.
  rewrite H1, H2, H3. reflexivity.
Qed.

(** C4, as the code has it.  Posting a loan payload that has a string id a
    second time changes nothing and is answered as the first time, provided
    that, when the loan is new, the payload gives no null for a column that
    has a default ([initialPaidMonths], [status], [isForeclosed]): the
    second call returns the store the first call left and the same reply.
    When the payload is taken, both replies are the serialised loan, and the
    store holds one loan under the id. *)
Theorem loan_upsert_idempotent (st : db) (uid : option string)
    (data : gmap string json) (i u1 u2 : string) :
  data !! "id" = Some (JStr i) ->
  (loans st !! i = None -> defaults_not_null data = true) ->
  save_loan (save_loan st uid (JObj data) u1).1 uid (JObj data) u2
    = save_loan st uid (JObj data) u1
  /\ (loan_payload_ok data = true ->
      loan_payload_typed data = true ->
      (loans st !! i = None -> user_ok uid = true) ->
       exists st1 loan,
         save_loan st uid (JObj data) u1
           = (st1, Reply 200 (Loan.to_dict (payments st) i loan))
         /\ save_loan st1 uid (JObj data) u2
            = (st1, Reply 200 (Loan.to_dict (payments st) i loan))
         /\ rows_with_id i (loans st1) = [(i, loan)]).
Proof.
  intros Hid Hdef.
  assert (Hsecond : forall d,
    parse_date_T (dget "startDate" data) = Ok d ->
    is_null (dget "name" data) = false ->
    is_null (dget "principal" data) = false ->
    (loans st !! i = None -> is_Some uid) ->
    let loan :=
      match loans st !! i with
      | Some old => Loan.update_fields old data d
      | None => Loan.insert_defaults (Loan.update_fields (Loan.new uid) data d)
      end in
    save_loan (set_loans st (<[i := loan]> (loans st))) uid (JObj data) u2
    = (set_loans st (<[i := loan]> (loans st)),
       Reply 200 (Loan.to_dict (payments st) i loan))).
  { intros d Hd Hn Hp Hu loan.
    rewrite (save_loan_accepts _ uid data i u2 d Hid Hd Hn Hp).
    - cbn. rewrite lookup_insert_eq, insert_insert_eq.
      assert (Hsame : Loan.update_fields loan data d = loan).
      { subst loan. destruct (loans st !! i) as [old|]; [reflexivity|].
        rewrite (insert_defaults_update_fields _ _ _ (Hdef eq_refl)). reflexivity. }
      rewrite Hsame. reflexivity.
    - cbn. rewrite lookup_insert_eq. discriminate. }
  split.
  - destruct (save_loan st uid (JObj data) u1) as [st1 [status body|e]] eqn:E1.
    + destruct (save_loan_reply_inv st uid data i u1 status body Hid) as [Hok Hu].
      { rewrite E1. reflexivity. }
      destruct (loan_payload_ok_inv data Hok) as (d & Hd & Hn & Hp).
      rewrite (save_loan_accepts st uid data i u1 d Hid Hd Hn Hp Hu) in E1.
      cbn in E1. injection E1 as <- <- <-. cbn [fst].
      apply (Hsecond d Hd Hn Hp Hu).
    + assert (Hst : st1 = st).
      { change st1 with (st1, Uncaught e).1. rewrite <- E1.
        apply (respond_uncaught _ _ e). change (respond st ?r) with (save_loan st uid (JObj data) u1).
        rewrite E1. reflexivity. }
      subst st1. cbn [fst].
      rewrite (save_loan_uuid4_unused st uid data i u2 u1 Hid). exact E1.
  - intros Hok _ Hu'.
    assert (Hu : loans st !! i = None -> is_Some uid).
    { intros Hnew. apply user_ok_is_Some, Hu', Hnew. }
    destruct (loan_payload_ok_inv data Hok) as (d & Hd & Hn & Hp).
    eexists _, _. split.
    { apply (save_loan_accepts st uid data i u1 d Hid Hd Hn Hp Hu). }
    split.
    { apply (Hsecond d Hd Hn Hp Hu). }
    cbn. apply rows_with_id_lookup, lookup_insert_eq.
Qed.

Lemma loan_upsert_idempotent_witness :
  loan_car_data !! "id" = Some (JStr "L1")
  /\ (loans db_empty !! "L1" = None -> defaults_not_null loan_car_data = true)
  /\ loan_payload_ok loan_car_data = true
  /\ loan_payload_typed loan_car_data = true
  /\ (loans db_empty !! "L1" = None -> user_ok (Some "A") = true)
  /\ exists st1 loan,
       save_loan db_empty (Some "A") loan_car "u1"
         = (st1, Reply 200 (Loan.to_dict (payments db_empty) "L1" loan))
       /\ save_loan st1 (Some "A") loan_car "u2"
          = (st1, Reply 200 (Loan.to_dict (payments db_empty) "L1" loan))
       /\ rows_with_id "L1" (loans st1) = [("L1", loan)].
Proof.
  split; [reflexivity|]. split; [reflexivity|]. do 2 (split; [reflexivity|]).
  split; [reflexivity|].
  destruct (loan_upsert_idempotent db_empty (Some "A") loan_car_data "L1" "u1" "u2")
    as [_ H]; [reflexivity|reflexivity|].
  apply H; reflexivity.
Defined.

(** C4, as stated, fails: a new loan is sent with a null [status].  The
    first post inserts it with the column default and replies with status
    ["active"]; the second, identical, post updates it and replies with a
    null status. *)
Lemma loan_upsert_null_status_differs :
  loans db_empty !! "L9" = None
  /\ status_of (save_loan db_empty (Some "A") loan_null_status "u1").2 = Some 200
  /\ field "status" (body_of (save_loan db_empty (Some "A") loan_null_status "u1").2)
     = JStr "active"
  /\ status_of (save_loan db_null_status (Some "A") loan_null_status "u2").2 = Some 200
  /\ field "status" (body_of (save_loan db_null_status (Some "A") loan_null_status "u2").2)
     = JNull
  /\ (save_loan db_null_status (Some "A") loan_null_status "u2").2
     <> (save_loan db_empty (Some "A") loan_null_status "u1").2.
Proof.
  assert (H1 : field "status" (body_of (save_loan db_empty (Some "A") loan_null_status "u1").2)
               = JStr "active") by (vm_compute; reflexivity).
  assert (H2 : field "status"
                 (body_of (save_loan db_null_status (Some "A") loan_null_status "u2").2)
               = JNull) by (vm_compute; reflexivity).
  split; [reflexivity|]. split; [vm_compute; reflexivity|]. split; [exact H1|].
  split; [vm_compute; reflexivity|]. split; [exact H2|].
  intros E. rewrite E, H1 in H2. discriminate.
Qed.

(** ** What a sync shows *)

Section Sync.
Implicit Types (st : db) (u : option string).

Lemma sync_loans st u :
  items (field "loans" (body_of (get_user_data st u).2))
  = if falsy u then []
    else (fun l => Loan.to_dict (payments st) l.1 l.2)
           <$> filter (fun l => Loan.user_id l.2 = u) (map_to_list (loans st)).
Proof. unfold get_user_data. destruct (falsy u); reflexivity. Qed.

Lemma sync_transactions st u :
  items (field "transactions" (body_of (get_user_data st u).2))
  = if falsy u then []
    else (fun t => Transaction.to_dict (JStr t.1) t.2)
           <$> filter (fun t => Transaction.user_id t.2 = u) (map_to_list (transactions st)).
Proof. unfold get_user_data. destruct (falsy u); reflexivity. Qed.

Lemma elem_of_sync_loans st u (x : json) :
  x ∈ items (field "loans" (body_of (get_user_data st u).2))
  <-> falsy u = false
      /\ exists i l, loans st !! i = Some l /\ Loan.user_id l = u
                     /\ x = Loan.to_dict (payments st) i l.
Proof.
  rewrite sync_loans. destruct (falsy u).
  - split; [intros H; inversion H|intros [? _]; discriminate].
  - rewrite list_elem_of_fmap. split.
    + intros ([i l] & -> & [Hu Hl%elem_of_map_to_list]%list_elem_of_filter).
      cbn in *. eauto 6.
    + intros (_ & i & l & Hl & Hu & ->). exists (i, l). split; [reflexivity|].
      apply list_elem_of_filter. split; [exact Hu|]. by apply elem_of_map_to_list.
Qed.

Lemma elem_of_sync_loan_ids st u (i : string) :
  JStr i ∈ sync_loan_ids (body_of (get_user_data st u).2)
  <-> falsy u = false /\ Loan.user_id <$> loans st !! i = Some u.
Proof.
  unfold sync_loan_ids. rewrite list_elem_of_fmap. split.
  - intros (x & Hx & (Hf & j & l & Hl & Hu & ->)%elem_of_sync_loans).
    rewrite loan_dict_id in Hx. injection Hx as ->.
    rewrite Hl. cbn. split; congruence.
  - intros [Hf Hi]. destruct (loans st !! i) as [l|] eqn:Hl; [|discriminate].
    cbn in Hi. exists (Loan.to_dict (payments st) i l).
    split; [reflexivity|]. apply elem_of_sync_loans. split; [exact Hf|].
    exists i, l. repeat split; congruence.
Qed.

Lemma elem_of_sync_transaction_ids st u (i : string) :
  JStr i ∈ sync_transaction_ids (body_of (get_user_data st u).2)
  <-> falsy u = false /\ Transaction.user_id <$> transactions st !! i = Some u.
Proof.
  unfold sync_transaction_ids. rewrite sync_transactions, list_elem_of_fmap.
  destruct (falsy u).
  { split; [intros (x & _ & H); inversion H|intros [? _]; discriminate]. }
  split.
  - intros (x & Hx & ([j t] & -> & [Hu Ht%elem_of_map_to_list]%list_elem_of_filter)%list_elem_of_fmap).
    rewrite transaction_dict_id in Hx. injection Hx as ->. cbn in *.
    rewrite Ht. cbn. split; congruence.
  - intros [_ Hi]. destruct (transactions st !! i) as [t|] eqn:Ht; [|discriminate].
    cbn in Hi. exists (Transaction.to_dict (JStr i) t). split; [reflexivity|].
    apply list_elem_of_fmap. exists (i, t). split; [reflexivity|].
    apply list_elem_of_filter. split; [cbn; congruence|]. by apply elem_of_map_to_list.
Qed.

(** A payment a sync shows is the payment of a loan it shows. *)
Lemma elem_of_sync_payment_ids st u (pid : string) :
  JStr pid ∈ sync_payment_ids (body_of (get_user_data st u).2) ->
  exists i p, JStr i ∈ sync_loan_ids (body_of (get_user_data st u).2)
              /\ payments st !! pid = Some p /\ Payment.loan_id p = Some i.
Proof.
  unfold sync_payment_ids. rewrite list_elem_of_bind.
  intros (x & Hpid & Hx). pose proof Hx as Hx'.
  apply elem_of_sync_loans in Hx' as (Hf & i & l & Hl & Hu & ->).
  rewrite loan_dict_payments in Hpid.
  apply list_elem_of_fmap in Hpid as (y & Hy & Hin).
  apply list_elem_of_fmap in Hin as ([q p] & -> & Hq).
  rewrite payment_dict_id in Hy. cbn in Hy. injection Hy as ->.
  unfold Loan.payments in Hq.
  apply list_elem_of_filter in Hq as [Hloan Hq%elem_of_map_to_list]. cbn in *.
  exists i, p. split; [|auto].
  apply elem_of_sync_loan_ids. split; [exact Hf|]. rewrite Hl. cbn. congruence.
Qed.

End Sync.

(** C7.  What a sync for user [B] shows belongs to [B]: a loan, or a
    transaction, whose owner is another user [A] is not among the loans, or
    the transactions, of the reply; so a loan that user [A] has just created
    is not shown to [B].  It is shown to [A]. *)
Theorem sync_isolation (st : db) (A B : string) :
  A <> B ->
  (forall i l, loans st !! i = Some l -> Loan.user_id l = Some A ->
     JStr i ∉ sync_loan_ids (body_of (get_user_data st (Some B)).2))
  /\ (forall i t, transactions st !! i = Some t -> Transaction.user_id t = Some A ->
       JStr i ∉ sync_transaction_ids (body_of (get_user_data st (Some B)).2))
  /\ (forall data i uuid4,
       data !! "id" = Some (JStr i) ->
       loans st !! i = None ->
       status_of (save_loan st (Some A) (JObj data) uuid4).2 = Some 200 ->
       (JStr i ∉ sync_loan_ids
                  (body_of (get_user_data (save_loan st (Some A) (JObj data) uuid4).1 (Some B)).2))
       /\ (A <> "" ->
           JStr i ∈ sync_loan_ids
                     (body_of (get_user_data (save_loan st (Some A) (JObj data) uuid4).1 (Some A)).2))).
Proof.
  intros HAB. split; [|split].
  - intros i l Hl Hu [_ Hi]%elem_of_sync_loan_ids.
    rewrite Hl in Hi. cbn in Hi. congruence.
  - intros i t Ht Hu [_ Hi]%elem_of_sync_transaction_ids.
    rewrite Ht in Hi. cbn in Hi. congruence.
  - intros data i uuid4 Hid Hnew Hok.
    destruct (save_loan st (Some A) (JObj data) uuid4) as [st' [status body|e]] eqn:E;
      [|discriminate].
    destruct (save_loan_reply_inv st (Some A) data i uuid4 status body Hid) as [Hp Hu].
    { rewrite E. reflexivity. }
    destruct (loan_payload_ok_inv data Hp) as (d & Hd & Hn & Hpr).
    rewrite (save_loan_accepts st (Some A) data i uuid4 d Hid Hd Hn Hpr Hu) in E.
    rewrite Hnew in E. cbn in E. injection E as <- _ _. cbn [fst].
    split.
    + intros [_ Hi]%elem_of_sync_loan_ids. cbn in Hi.
      rewrite lookup_insert_eq in Hi. cbn in Hi. congruence.
    + intros HA. apply elem_of_sync_loan_ids. split.
      * cbn. apply bool_decide_eq_false_2. exact HA.
      * cbn. rewrite lookup_insert_eq. reflexivity.
Qed.

Lemma sync_isolation_witness :
  "A" <> "B"
  /\ loan_car_data !! "id" = Some (JStr "L1")
  /\ loans db_empty !! "L1" = None
  /\ status_of (save_loan db_empty (Some "A") loan_car "u0").2 = Some 200
  /\ (JStr "L1" ∉ sync_loan_ids (body_of (get_user_data db_one_loan (Some "B")).2))
  /\ (JStr "L1" ∈ sync_loan_ids (body_of (get_user_data db_one_loan (Some "A")).2)).
Proof.
  assert (HAB : "A" <> "B") by discriminate.
  split; [exact HAB|]. split; [reflexivity|]. split; [reflexivity|]. split; [reflexivity|].
  destruct (sync_isolation db_empty "A" "B" HAB) as (_ & _ & H).
  destruct (H loan_car_data "L1" "u0") as [H1 H2]; [reflexivity..|].
  split; [exact H1|]. apply H2. discriminate.
Defined.

(** C3.  Deleting a loan that exists deletes every payment whose loan it
    is and no other payment; afterwards the loan has no payments, and a sync
    for any user shows neither the loan nor any of the payments that were
    its own. *)
Theorem delete_loan_cascades (st : db) (i : string) :
  is_Some (loans st !! i) ->
  exists st',
    delete_loan st i = (st', Reply 200 (dict [("message", JStr "Deleted successfully")]))
    /\ loans st' !! i = None
    /\ (forall pid p, payments st !! pid = Some p -> Payment.loan_id p = Some i ->
         payments st' !! pid = None)
    /\ (forall pid p, payments st !! pid = Some p -> Payment.loan_id p <> Some i ->
         payments st' !! pid = Some p)
    /\ Loan.payments (payments st') i = []
    /\ forall u,
         (JStr i ∉ sync_loan_ids (body_of (get_user_data st' u).2))
         /\ forall pid p, payments st !! pid = Some p -> Payment.loan_id p = Some i ->
              JStr pid ∉ sync_payment_ids (body_of (get_user_data st' u).2).
Proof.
  intros [l Hl]. unfold delete_loan. rewrite Hl.
  eexists. split; [reflexivity|]. cbn.
  assert (Hgone : forall pid p, payments st !! pid = Some p -> Payment.loan_id p = Some i ->
            filter (fun p => Payment.loan_id p.2 <> Some i) (payments st) !! pid = None).
  { intros pid p Hp Hloan. apply map_lookup_filter_None. right.
    intros p' Hp'. cbn. intros Hne. apply Hne. congruence. }
  split; [apply lookup_delete_eq|]. split; [exact Hgone|]. split.
  { intros pid p Hp Hne. apply map_lookup_filter_Some. auto. }
  split.
  { unfold Loan.payments.
    destruct (filter _ (map_to_list _)) as [|[pid p] rest] eqn:E; [reflexivity|].
    assert (Hin : (pid, p) ∈ filter (fun p => Payment.loan_id p.2 = Some i)
                     (map_to_list (filter (fun p => Payment.loan_id p.2 <> Some i) (payments st)))).
    { rewrite E. left. }
    apply list_elem_of_filter in Hin as [Hloan Hin%elem_of_map_to_list]. cbn in Hloan.
    apply map_lookup_filter_Some in Hin as [_ Hne]. cbn in Hne. contradiction. }
  intros u. split.
  - intros [_ Hi]%elem_of_sync_loan_ids. cbn in Hi.
    rewrite lookup_delete_eq in Hi. discriminate.
  - intros pid p Hp Hloan (j & p' & _ & Hp' & _)%elem_of_sync_payment_ids.
    cbn in Hp'. rewrite (Hgone pid p Hp Hloan) in Hp'. discriminate.
Qed.

Lemma delete_loan_cascades_witness :
  is_Some (loans db_paid_loan !! "L1")
  /\ Payment.loan_id <$> payments db_paid_loan !! "P1" = Some (Some "L1")
  /\ exists st',
       delete_loan db_paid_loan "L1"
         = (st', Reply 200 (dict [("message", JStr "Deleted successfully")]))
       /\ payments st' !! "P1" = None
       /\ JStr "P1" ∉ sync_payment_ids (body_of (get_user_data st' (Some "A")).2).
Proof.
  assert (Hl : is_Some (loans db_paid_loan !! "L1")) by (vm_compute; eauto).
  split; [exact Hl|]. split; [reflexivity|].
  destruct (delete_loan_cascades db_paid_loan "L1" Hl) as (st' & H1 & _ & H3 & _ & _ & H6).
  destruct (payments db_paid_loan !! "P1") as [p|] eqn:Hp; [|discriminate].
  assert (Hloan : Payment.loan_id p = Some "L1").
  { assert (H : Payment.loan_id <$> payments db_paid_loan !! "P1" = Some (Some "L1"))
      by reflexivity.
    rewrite Hp in H. cbn in H. congruence. }
  exists st'. split; [exact H1|]. split; [exact (H3 "P1" p Hp Hloan)|].
  destruct (H6 (Some "A")) as [_ H]. exact (H "P1" p Hp Hloan).
Defined.


(** A payment of the whole principal is stored, and the loan is as active
    as before. *)
Example add_payment_paid_in_full :
  (add_payment db_one_loan payment_april "u2").2
    = Reply 200 (dict [ ("id", JStr "P1"); ("date", JStr "2024-04-15");
                        ("amount", JInt 1000); ("note", JStr "paid in full") ])
  /\ Loan.principal <$> loans db_paid_loan !! "L1" = Some (JInt 1000)
  /\ Loan.status <$> loans db_paid_loan !! "L1" = Some (JStr "active")
  /\ Loan.is_foreclosed <$> loans db_paid_loan !! "L1" = Some (JBool false)
  /\ Payment.amount <$> payments db_paid_loan !! "P1" = Some (JInt 1000).
Proof. repeat split; vm_compute; reflexivity. Qed.

(** ** Dates through an upsert *)

(** C8, as the code has it.  A loan posted with a [startDate] that is a
    calendar date written [YYYY-MM-DD], alone or followed by ['T'] and a
    time, in a payload that is otherwise taken (a name, a principal, members
    of their columns' types), is stored with that date; the reply to the
    upsert gives [startDate] as the date written [YYYY-MM-DD], ten
    characters that [strptime] reads back as the date; and a sync for the
    owner of the loan holds the very dict the upsert replied with. *)
Theorem start_date_round_trip (st : db) (uid : option string)
    (data : gmap string json) (i uuid4 : string) (dt : date) (time : option string) :
  valid_date dt = true ->
  data !! "id" = Some (JStr i) ->
  data !! "startDate" = Some (JStr (date_time_text dt time)) ->
  is_null (dget "name" data) = false ->
  is_null (dget "principal" data) = false ->
  loan_payload_typed data = true ->
  (loans st !! i = None -> user_ok uid = true) ->
  exists st' body loan,
    save_loan st uid (JObj data) uuid4 = (st', Reply 200 body)
    /\ field "startDate" body = JStr (isoformat dt)
    /\ loans st' !! i = Some loan
    /\ Loan.start_date loan = Some dt
    /\ Loan.user_id loan = Loan.user_id (default (Loan.new uid) (loans st !! i))
    /\ (forall u, u <> "" -> Loan.user_id loan = Some u ->
         body ∈ items (field "loans" (body_of (get_user_data st' (Some u)).2)))
    /\ strptime (isoformat dt) = Some dt
    /\ String.length (isoformat dt) = 10%nat.
Proof.
  intros Hv Hid Hstart Hn Hp _ Hu'.
  assert (Hu : loans st !! i = None -> is_Some uid).
  { intros Hnew. apply user_ok_is_Some, Hu', Hnew. }
  assert (Hd : parse_date_T (dget "startDate" data) = Ok dt).
  { rewrite (dget_lookup _ _ _ Hstart). apply parse_date_T_text, Hv. }
  eexists _, _, _. split.
  { apply (save_loan_accepts st uid data i uuid4 dt Hid Hd Hn Hp Hu). }
  cbn. split; [destruct (loans st !! i); reflexivity|].
  split; [apply lookup_insert_eq|].
  split; [destruct (loans st !! i); reflexivity|].
  split; [destruct (loans st !! i); reflexivity|].
  split; [|split; [apply strptime_isoformat, Hv|apply isoformat_length]].
  intros u Hne Hown. apply elem_of_sync_loans. split.
  { cbn. apply bool_decide_eq_false_2, Hne. }
  eexists i, _. split; [cbn; apply lookup_insert_eq|]. split; [exact Hown|reflexivity].
Qed.

Lemma start_date_round_trip_witness :
  valid_date (Date 2024 3 15) = true
  /\ loan_car_data !! "id" = Some (JStr "L1")
  /\ loan_car_data !! "startDate" = Some (JStr "2024-03-15T00:00:00Z")
  /\ loan_payload_typed loan_car_data = true
  /\ exists st' body,
       save_loan db_empty (Some "A") loan_car "u0" = (st', Reply 200 body)
       /\ field "startDate" body = JStr "2024-03-15"
       /\ body ∈ items (field "loans" (body_of (get_user_data st' (Some "A")).2)).
Proof.
  do 4 (split; [reflexivity|]).
  destruct (start_date_round_trip db_empty (Some "A") loan_car_data "L1" "u0"
              (Date 2024 3 15) (Some "00:00:00Z"))
    as (st' & body & loan & H1 & H2 & _ & _ & H4 & H5 & _);
    [reflexivity..|].
  exists st', body. split; [exact H1|]. split; [exact H2|].
  apply H5; [discriminate|exact H4].
Defined.

(** C8, as stated, fails: the [startDate] is an ISO 8601 date and time in
    the basic format; its part before ['T'] is not [YYYY-MM-DD], [strptime]
    raises and the loan is not stored. *)
Lemma start_date_basic_format_rejected :
  save_loan db_empty (Some "A") loan_basic_format "u0" = (db_empty, Uncaught ValueError)
  /\ loans (save_loan db_empty (Some "A") loan_basic_format "u0").1 !! "L1" = None.
Proof. split; vm_compute; reflexivity. Qed.

(** * Further properties of the handlers *)

(** ** What no request does *)

Lemma strptime_valid (s : string) (d : date) : strptime s = Some d -> valid_date d = true.
Proof.
  unfold strptime. destruct (Re.Ymd s) as [|[dt [|c rest]] l]; try discriminate.
  destruct (valid_date dt) eqn:Hv; [|discriminate]. congruence.
Qed.

Lemma parse_date_valid (v : json) (d : date) : parse_date v = Ok d -> valid_date d = true.
Proof.
  unfold parse_date. destruct v; try discriminate.
  destruct (strptime s) eqn:E; [|discriminate]. intros [= <-]. eapply strptime_valid, E.
Qed.

Lemma parse_date_T_valid (v : json) (d : date) :
  parse_date_T v = Ok d -> valid_date d = true.
Proof. unfold parse_date_T. destruct v; try discriminate. apply parse_date_valid. Qed.

(** The shapes [save_loan] can end in. *)
Lemma save_loan_cases (st : db) (uid : option string) (body : json) (uuid4 : string) :
  (exists e, save_loan st uid body uuid4 = (st, Uncaught e))
  \/ (exists data k d,
        body = JObj data /\ string_key (dget "id" data) = Ok k
        /\ parse_date_T (dget "startDate" data) = Ok d
        /\ is_null (dget "name" data) = false
        /\ is_null (dget "principal" data) = false
        /\ let id := default uuid4 k in
           let found := k ≫= (fun i => loans st !! i) in
           let loan :=
             match found with
             | Some old => Loan.update_fields old data d
             | None => Loan.insert_defaults (Loan.update_fields (Loan.new uid) data d)
             end in
           (found = None -> loans st !! id = None /\ is_Some uid)
           /\ save_loan st uid body uuid4
              = (set_loans st (<[id := loan]> (loans st)),
                 Reply 200 (Loan.to_dict (payments st) id loan))).
Proof.
  unfold save_loan.
  destruct (as_dict body) as [data|e] eqn:Hb; cbn; [|eauto].
  destruct body; try discriminate. injection Hb as ->.
  destruct (string_key (dget "id" data)) as [k|e] eqn:Hk; cbn; [|eauto].
  destruct (parse_date_T _) as [d|e] eqn:Hd; cbn; [|eauto].
  destruct (k ≫= (fun i => loans st !! i)) as [old|] eqn:Hf; cbn.
  - unfold update_loan. cbn.
    destruct (is_null (dget "name" data)) eqn:Hn; cbn; [eauto|].
    destruct (is_null (dget "principal" data)) eqn:Hp; cbn; [eauto|].
    right. exists data, k, d. rewrite Hf. cbn. rewrite lookup_insert_eq.
    repeat split; try done.
  - unfold insert_loan, Loan.not_null. cbn.
    destruct (bool_decide (loans st !! default uuid4 k = None)) eqn:Hfree; cbn; [|eauto].
    apply bool_decide_eq_true in Hfree.
    destruct uid as [u|]; cbn; [|eauto].
    destruct (is_null (dget "name" data)) eqn:Hn; cbn; [eauto|].
    destruct (is_null (dget "principal" data)) eqn:Hp; cbn; [eauto|].
    right. exists data, k, d. rewrite Hf. cbn. rewrite lookup_insert_eq.
    repeat split; eauto.
Qed.

(** The shapes [add_payment] can end in. *)
Lemma add_payment_cases (st : db) (body : json) (uuid4 : string) :
  (exists e, add_payment st body uuid4 = (st, Uncaught e))
  \/ (exists data k lk d,
        body = JObj data /\ string_key (dget "id" data) = Ok k
        /\ string_key (dget "loanId" data) = Ok (Some lk)
        /\ parse_date (dget "date" data) = Ok d
        /\ is_null (dget "amount" data) = false
        /\ payments st !! default uuid4 k = None
        /\ (enforce_fk st = true -> is_Some (loans st !! lk))
        /\ let p := Payment.mk (Some lk) (Some d) (dget "amount" data) (dget "note" data) in
           add_payment st body uuid4
           = (set_payments st (<[default uuid4 k := p]> (payments st)),
              Reply 200 (Payment.to_dict (JStr (default uuid4 k)) p))).
Proof.
  unfold add_payment.
  destruct (as_dict body) as [data|e] eqn:Hb; cbn; [|eauto].
  destruct body; try discriminate. injection Hb as ->.
  destruct (parse_date _) as [d|e] eqn:Hd; cbn; [|eauto].
  destruct (string_key (dget "id" data)) as [k|e] eqn:Hk; cbn; [|eauto].
  destruct (string_key (dget "loanId" data)) as [lk|e] eqn:Hlk; cbn; [|eauto].
  unfold insert_payment, Payment.not_null, fk_ok. cbn.
  destruct (bool_decide (payments st !! default uuid4 k = None)) eqn:Hfree; cbn; [|eauto].
  apply bool_decide_eq_true in Hfree.
  destruct lk as [lk|]; cbn; [|eauto].
  destruct (is_null (dget "amount" data)) eqn:Ha; cbn; [eauto|].
  destruct (enforce_fk st) eqn:Hfk; cbn.
  - destruct (bool_decide (is_Some (loans st !! lk))) eqn:Hl; cbn; [|eauto].
    apply bool_decide_eq_true in Hl.
    right. exists data, k, lk, d. repeat split; eauto.
  - right. exists data, k, lk, d. repeat split; eauto. discriminate.
Qed.

(** The shapes [save_transaction] can end in. *)
Lemma save_transaction_cases (st : db) (uid : option string) (body : json)
    (uuid4 : string) :
  (exists e, save_transaction st uid body uuid4 = (st, Uncaught e))
  \/ (exists data k u d,
        body = JObj data /\ string_key (dget "id" data) = Ok k
        /\ uid = Some u
        /\ parse_date (dget "date" data) = Ok d
        /\ is_null (dget "amount" data) = false
        /\ is_null (dget "type" data) = false
        /\ (k = None -> transactions st !! uuid4 = None)
        /\ let tx := Transaction.mk (Some u) (Some d) (dget "amount" data)
                       (dget "type" data) (dget "category" data)
                       (dget "description" data) in
           save_transaction st uid body uuid4
           = (set_transactions st (<[default uuid4 k := tx]> (transactions st)),
              Reply 200 (Transaction.to_dict (dget "id" data) tx))).
Proof.
  unfold save_transaction.
  destruct (as_dict body) as [data|e] eqn:Hb; cbn; [|eauto].
  destruct body; try discriminate. injection Hb as ->.
  destruct (parse_date _) as [d|e] eqn:Hd; cbn; [|eauto].
  destruct (string_key (dget "id" data)) as [k|e] eqn:Hk; cbn; [|eauto].
  unfold merge_transaction, Transaction.not_null. cbn.
  destruct uid as [u|]; cbn; [|eauto].
  destruct (is_null (dget "amount" data)) eqn:Ha; cbn; [eauto|].
  destruct (is_null (dget "type" data)) eqn:Ht; cbn; [eauto|].
  destruct k as [i|]; cbn.
  - right. exists data, (Some i), u, d. repeat split; eauto. discriminate.
  - destruct (bool_decide (transactions st !! uuid4 = None)) eqn:Hfree; cbn; [|eauto].
    apply bool_decide_eq_true in Hfree.
    right. exists data, None, u, d. repeat split; eauto.
Qed.

(** X1.  Only a request answered with status 200 changes the store, and a
    sync never does: a request whose body, if it has one, has an id that is
    a string or null or has none, and that raises or is answered 400 or 404,
    leaves every table as it was. *)
Theorem unanswered_request_changes_nothing (st : db) (r : request) :
  (exists u, r = GetSync u)
  \/ (request_id_ok r = true /\ status_of (handle st r).2 <> Some 200) ->
  (handle st r).1 = st.
Proof.
  intros [[u ->]|[_ H]].
  { cbn. unfold get_user_data. destruct (falsy u); reflexivity. }
  destruct r as [u|u body uuid4|i|body uuid4|u body uuid4|i]; cbn [handle] in *.
  - unfold get_user_data. destruct (falsy u); reflexivity.
  - destruct (save_loan_cases st u body uuid4)
      as [[e E]|(data & k & d & _ & _ & _ & _ & _ & _ & E)]; rewrite E in *; cbn in *; done.
  - unfold delete_loan in *. destruct (loans st !! i); cbn in *; done.
  - destruct (add_payment_cases st body uuid4)
      as [[e E]|(data & k & lk & d & _ & _ & _ & _ & _ & _ & _ & E)];
      rewrite E in *; cbn in *; done.
  - destruct (save_transaction_cases st u body uuid4)
      as [[e E]|(data & k & u' & d & _ & _ & _ & _ & _ & _ & _ & E)];
      rewrite E in *; cbn in *; done.
  - unfold delete_transaction in *. destruct (transactions st !! i); cbn in *; done.
Qed.

Lemma unanswered_request_changes_nothing_witness :
  request_id_ok (PostLoan (Some "B") loan_car_unnamed "u3") = true
  /\ status_of (handle db_one_loan (PostLoan (Some "B") loan_car_unnamed "u3")).2 <> Some 200
  /\ (handle db_one_loan (PostLoan (Some "B") loan_car_unnamed "u3")).1 = db_one_loan
  /\ request_id_ok (DeleteLoan "L2") = true
  /\ status_of (handle db_one_loan (DeleteLoan "L2")).2 <> Some 200
  /\ (handle db_one_loan (DeleteLoan "L2")).1 = db_one_loan.
Proof.
  assert (H1 : status_of (handle db_one_loan (PostLoan (Some "B") loan_car_unnamed "u3")).2
               <> Some 200) by (vm_compute; discriminate).
  assert (H2 : status_of (handle db_one_loan (DeleteLoan "L2")).2 <> Some 200)
    by (vm_compute; discriminate).
  split; [reflexivity|]. split; [exact H1|]. split.
  { apply unanswered_request_changes_nothing. right. split; [reflexivity|exact H1]. }
  split; [reflexivity|]. split; [exact H2|].
  apply unanswered_request_changes_nothing. right. split; [reflexivity|exact H2].
Defined.

(** X2.  No request gives a loan another owner: a loan that is there before
    and after a request, whatever the request, has the [user_id] it had. *)
Theorem loan_owner_never_changes (st : db) (r : request) (i : string) (l l' : Loan.t) :
  loans st !! i = Some l ->
  loans (handle st r).1 !! i = Some l' ->
  Loan.user_id l' = Loan.user_id l.
Proof.
  intros Hl.
  destruct r as [u|u body uuid4|j|body uuid4|u body uuid4|j]; cbn [handle].
  - unfold get_user_data. destruct (falsy u); cbn; congruence.
  - destruct (save_loan_cases st u body uuid4)
      as [[e E]|(data & k & d & _ & Hk & _ & _ & _ & Hnew & E)]; rewrite E; cbn.
    { congruence. }
    destruct (decide (default uuid4 k = i)) as [Hi|Hi].
    + rewrite Hi, lookup_insert_eq. intros [= <-]. cbn.
      destruct (k ≫= (fun i0 => loans st !! i0)) as [old|] eqn:Hf.
      * destruct k as [i'|]; [|discriminate]. cbn in *. subst i'. congruence.
      * destruct (Hnew eq_refl) as [Hfree _]. congruence.
    + rewrite lookup_insert_ne by exact Hi. congruence.
  - unfold delete_loan. destruct (loans st !! j); cbn; [|congruence].
    destruct (decide (j = i)) as [ -> | Hj].
    + rewrite lookup_delete_eq. discriminate.
    + rewrite lookup_delete_ne by exact Hj. congruence.
  - destruct (add_payment_cases st body uuid4)
      as [[e E]|(data & k & lk & d & _ & _ & _ & _ & _ & _ & _ & E)];
      rewrite E; cbn; congruence.
  - destruct (save_transaction_cases st u body uuid4)
      as [[e E]|(data & k & u' & d & _ & _ & _ & _ & _ & _ & _ & E)];
      rewrite E; cbn; congruence.
  - unfold delete_transaction. destruct (transactions st !! j); cbn; congruence.
Qed.

Lemma loan_owner_never_changes_witness :
  exists l l',
    loans db_one_loan !! "L1" = Some l
    /\ loans (handle db_one_loan (PostLoan (Some "B") (JObj loan_car_renamed) "u1")).1 !! "L1"
       = Some l'
    /\ Loan.name l' = JStr "van"
    /\ Loan.user_id l' = Loan.user_id l
    /\ Loan.user_id l = Some "A".
Proof.
  destruct (loans db_one_loan !! "L1") as [l|] eqn:Hl; [|discriminate].
  destruct (loans (handle db_one_loan (PostLoan (Some "B") (JObj loan_car_renamed) "u1")).1
              !! "L1") as [l'|] eqn:Hl'; [|discriminate].
  exists l, l'. split; [reflexivity|]. split; [reflexivity|].
  assert (Hn : Loan.name <$>
            loans (handle db_one_loan (PostLoan (Some "B") (JObj loan_car_renamed) "u1")).1
              !! "L1" = Some (JStr "van")) by reflexivity.
  assert (Hu : Loan.user_id <$> loans db_one_loan !! "L1" = Some (Some "A")) by reflexivity.
  rewrite Hl' in Hn. rewrite Hl in Hu. cbn in Hn, Hu.
  split; [congruence|]. split; [|congruence].
  exact (loan_owner_never_changes db_one_loan _ "L1" l l' Hl Hl').
Defined.

(** X3.  A payment that is stored stays as it is through every request but
    one: the deletion of the loan it belongs to, which removes it.  No
    request changes a payment or removes it alone. *)
Theorem payment_kept_until_loan_deleted (st : db) (r : request) (pid : string)
    (p : Payment.t) :
  payments st !! pid = Some p ->
  payments (handle st r).1 !! pid = Some p
  \/ (exists l, r = DeleteLoan l /\ Payment.loan_id p = Some l
                /\ is_Some (loans st !! l)
                /\ payments (handle st r).1 !! pid = None).
Proof.
  intros Hp.
  destruct r as [u|u body uuid4|j|body uuid4|u body uuid4|j]; cbn [handle].
  - left. unfold get_user_data. destruct (falsy u); exact Hp.
  - left. destruct (save_loan_cases st u body uuid4)
      as [[e E]|(data & k & d & _ & _ & _ & _ & _ & _ & E)]; rewrite E; exact Hp.
  - unfold delete_loan. destruct (loans st !! j) as [lj|] eqn:Hj; cbn; [|left; exact Hp].
    destruct (decide (Payment.loan_id p = Some j)) as [Hl|Hl].
    + right. exists j. rewrite Hj. repeat split; eauto.
      apply map_lookup_filter_None. right. intros p' Hp'. cbn. intros Hne.
      apply Hne. congruence.
    + left. apply map_lookup_filter_Some. auto.
  - left. destruct (add_payment_cases st body uuid4)
      as [[e E]|(data & k & lk & d & _ & _ & _ & _ & _ & Hfree & _ & E)];
      rewrite E; cbn; [exact Hp|].
    rewrite lookup_insert_ne; [exact Hp|]. intros Heq. congruence.
  - left. destruct (save_transaction_cases st u body uuid4)
      as [[e E]|(data & k & u' & d & _ & _ & _ & _ & _ & _ & _ & E)];
      rewrite E; exact Hp.
  - left. unfold delete_transaction. destruct (transactions st !! j); exact Hp.
Qed.

Lemma payment_kept_until_loan_deleted_witness :
  exists p,
    payments db_paid_loan !! "P1" = Some p
    /\ payments (handle db_paid_loan (PostPayment payment_april "u9")).1 !! "P1" = Some p
    /\ payments (handle db_paid_loan (DeleteLoan "L1")).1 !! "P1" = None.
Proof.
  destruct (payments db_paid_loan !! "P1") as [p|] eqn:Hp; [|discriminate].
  exists p. split; [reflexivity|].
  destruct (payment_kept_until_loan_deleted db_paid_loan (PostPayment payment_april "u9")
              "P1" p Hp) as [H|(l & H & _)]; [|discriminate].
  split; [exact H|].
  destruct (payment_kept_until_loan_deleted db_paid_loan (DeleteLoan "L1") "P1" p Hp)
    as [H'|(l & _ & _ & _ & H')]; [|exact H'].
  assert (Hgone : payments (handle db_paid_loan (DeleteLoan "L1")).1 !! "P1" = None)
    by reflexivity.
  exact Hgone.
Defined.

(** ** Invariants of the store *)

Lemma handle_enforce_fk (st : db) (r : request) :
  enforce_fk (handle st r).1 = enforce_fk st.
Proof.
  destruct r as [u|u body uuid4|j|body uuid4|u body uuid4|j]; cbn [handle].
  - unfold get_user_data. destruct (falsy u); reflexivity.
  - destruct (save_loan_cases st u body uuid4)
      as [[e E]|(data & k & d & _ & _ & _ & _ & _ & _ & E)]; rewrite E; reflexivity.
  - unfold delete_loan. destruct (loans st !! j); reflexivity.
  - destruct (add_payment_cases st body uuid4)
      as [[e E]|(data & k & lk & d & _ & _ & _ & _ & _ & _ & _ & E)];
      rewrite E; reflexivity.
  - destruct (save_transaction_cases st u body uuid4)
      as [[e E]|(data & k & u' & d & _ & _ & _ & _ & _ & _ & _ & E)];
      rewrite E; reflexivity.
  - unfold delete_transaction. destruct (transactions st !! j); reflexivity.
Qed.

Lemma handle_payments_have_loans (st : db) (r : request) :
  enforce_fk st = true ->
  payments_have_loans st -> payments_have_loans (handle st r).1.
Proof.
  intros Hfk Hinv. unfold payments_have_loans in *.
  destruct r as [u|u body uuid4|j|body uuid4|u body uuid4|j]; cbn [handle].
  - unfold get_user_data. destruct (falsy u); exact Hinv.
  - destruct (save_loan_cases st u body uuid4)
      as [[e E]|(data & k & d & _ & _ & _ & _ & _ & _ & E)]; rewrite E; cbn; [exact Hinv|].
    intros pid p Hp. destruct (Hinv pid p Hp) as (l & Hl & Hsome).
    exists l. split; [exact Hl|]. rewrite lookup_insert_is_Some.
    destruct (decide (default uuid4 k = l)); auto.
  - unfold delete_loan. destruct (loans st !! j); cbn; [|exact Hinv].
    intros pid p [Hp Hne]%map_lookup_filter_Some. cbn in Hne.
    destruct (Hinv pid p Hp) as (l & Hl & Hsome).
    exists l. split; [exact Hl|]. rewrite lookup_delete_ne; [exact Hsome|]. congruence.
  - destruct (add_payment_cases st body uuid4)
      as [[e E]|(data & k & lk & d & _ & _ & _ & _ & _ & _ & Hl & E)];
      rewrite E; cbn; [exact Hinv|].
    apply map_Forall_insert_2; [|exact Hinv]. exists lk. auto.
  - destruct (save_transaction_cases st u body uuid4)
      as [[e E]|(data & k & u' & d & _ & _ & _ & _ & _ & _ & _ & E)];
      rewrite E; exact Hinv.
  - unfold delete_transaction. destruct (transactions st !! j); exact Hinv.
Qed.

(** X4.  Where the database enforces the foreign key, referential integrity
    is kept by every sequence of requests: if every payment belongs to a
    loan that is there, the same holds after the requests, deletions of
    loans included. *)
Theorem referential_integrity_kept (st : db) (rs : list request) :
  enforce_fk st = true ->
  payments_have_loans st ->
  payments_have_loans (run st rs).
Proof.
  revert st. induction rs as [|r rs IH]; intros st Hfk Hinv; [exact Hinv|].
  cbn. apply IH.
  - rewrite handle_enforce_fk. exact Hfk.
  - apply handle_payments_have_loans; assumption.
Qed.

Lemma referential_integrity_kept_witness :
  enforce_fk db_empty = true
  /\ payments_have_loans db_empty
  /\ payments_have_loans (run db_empty session)
  /\ payments (run db_empty (take 3 session)) !! "P2" = None
  /\ is_Some (payments (run db_empty (take 3 session)) !! "P1").
Proof.
  assert (H0 : payments_have_loans db_empty) by apply map_Forall_empty.
  split; [reflexivity|]. split; [exact H0|]. split.
  { apply referential_integrity_kept; [reflexivity|exact H0]. }
  split; [reflexivity|]. vm_compute. eauto.
Defined.

Lemma handle_rows_ok (st : db) (r : request) : rows_ok st -> rows_ok (handle st r).1.
Proof.
  intros (HL & HP & HT). unfold rows_ok.
  destruct r as [u|u body uuid4|j|body uuid4|u body uuid4|j]; cbn [handle].
  - unfold get_user_data. destruct (falsy u); cbn; auto.
  - destruct (save_loan_cases st u body uuid4)
      as [[e E]|(data & k & d & _ & Hk & Hd & Hn & Hp & Hnew & E)]; rewrite E; cbn; [auto|].
    split; [|auto]. apply map_Forall_insert_2; [|exact HL].
    destruct (k ≫= (fun i => loans st !! i)) as [old|] eqn:Hf; cbn.
    + split; [|cbn; eapply parse_date_T_valid, Hd].
      unfold Loan.not_null. cbn. rewrite Hn, Hp, !andb_true_r.
      apply bool_decide_eq_true.
      destruct k as [i|]; [|discriminate]. cbn in Hf.
      destruct (HL i old Hf) as [Hnn _]. unfold Loan.not_null in Hnn.
      apply andb_prop in Hnn as [[Hu%bool_decide_eq_true _]%andb_prop _]. exact Hu.
    + split; [|cbn; eapply parse_date_T_valid, Hd].
      unfold Loan.not_null. cbn. rewrite Hn, Hp, !andb_true_r.
      apply bool_decide_eq_true. apply (Hnew eq_refl).
  - unfold delete_loan. destruct (loans st !! j); cbn; [|auto].
    split; [apply map_Forall_delete, HL|]. split; [|exact HT].
    intros pid p [Hp _]%map_lookup_filter_Some. exact (HP pid p Hp).
  - destruct (add_payment_cases st body uuid4)
      as [[e E]|(data & k & lk & d & _ & _ & _ & Hd & Ha & _ & _ & E)];
      rewrite E; cbn; [auto|].
    split; [exact HL|]. split; [|exact HT].
    apply map_Forall_insert_2; [|exact HP].
    split; [|cbn; eapply parse_date_valid, Hd].
    unfold Payment.not_null. cbn. rewrite Ha. cbn.
    rewrite ?bool_decide_eq_true_2 by eauto. reflexivity.
  - destruct (save_transaction_cases st u body uuid4)
      as [[e E]|(data & k & u' & d & _ & _ & _ & Hd & Ha & Ht & _ & E)];
      rewrite E; cbn; [auto|].
    split; [exact HL|]. split; [exact HP|].
    apply map_Forall_insert_2; [|exact HT].
    split; [|cbn; eapply parse_date_valid, Hd].
    unfold Transaction.not_null. cbn. rewrite Ha, Ht. cbn.
    rewrite ?bool_decide_eq_true_2 by eauto. reflexivity.
  - unfold delete_transaction. destruct (transactions st !! j); cbn; [|auto].
    split; [exact HL|]. split; [exact HP|]. apply map_Forall_delete, HT.
Qed.

(** X5.  Every sequence of requests keeps the rows well formed: if every
    row has its non-nullable columns filled (a loan its owner, name and
    principal; a payment its loan, date and amount; a transaction its owner,
    date, amount and type) and holds only dates that exist, the same holds
    after the requests. *)
Theorem rows_stay_well_formed (st : db) (rs : list request) :
  rows_ok st -> rows_ok (run st rs).
Proof.
  revert st. induction rs as [|r rs IH]; intros st Hinv; [exact Hinv|].
  cbn. apply IH, handle_rows_ok, Hinv.
Qed.

Lemma rows_stay_well_formed_witness :
  rows_ok db_empty /\ rows_ok (run db_empty session)
  /\ is_Some (transactions (run db_empty session) !! "T1").
Proof.
  assert (H0 : rows_ok db_empty) by (split; [|split]; apply map_Forall_empty).
  split; [exact H0|]. split; [exact (rows_stay_well_formed db_empty session H0)|].
  vm_compute. eauto.
Defined.

(** ** What a sync shows, continued *)




(** X7.  An empty [userId] is taken by the upserts and refused by the sync:
    a new loan, or a transaction, sent with [userId] empty in a payload that
    is taken is stored with the empty owner; and a row whose owner is empty
    is shown by no sync of the store that holds it, for any user. *)
Theorem rows_of_empty_user_hidden (st : db) :
  (forall i l u, loans st !! i = Some l -> Loan.user_id l = Some "" ->
     JStr i ∉ sync_loan_ids (body_of (get_user_data st u).2))
  /\ (forall i t u, transactions st !! i = Some t -> Transaction.user_id t = Some "" ->
       JStr i ∉ sync_transaction_ids (body_of (get_user_data st u).2))
  /\ (forall data i uuid4,
       data !! "id" = Some (JStr i) ->
       loan_payload_ok data = true ->
       loan_payload_typed data = true ->
       loans st !! i = None ->
       exists st' body loan,
         save_loan st (Some "") (JObj data) uuid4 = (st', Reply 200 body)
         /\ loans st' !! i = Some loan
         /\ Loan.user_id loan = Some "")
  /\ (forall data i uuid4,
       data !! "id" = Some (JStr i) ->
       transaction_payload_ok data = true ->
       transaction_payload_typed data = true ->
       exists st' body tx,
         save_transaction st (Some "") (JObj data) uuid4 = (st', Reply 200 body)
         /\ transactions st' !! i = Some tx
         /\ Transaction.user_id tx = Some "").
Proof.
  split; [|split; [|split]].
  - intros i l u Hl Hown [Hf Hi]%elem_of_sync_loan_ids.
    rewrite Hl in Hi. cbn in Hi. rewrite Hown in Hi. injection Hi as <-. discriminate.
  - intros i t u Ht Hown [Hf Hi]%elem_of_sync_transaction_ids.
    rewrite Ht in Hi. cbn in Hi. rewrite Hown in Hi. injection Hi as <-. discriminate.
  - intros data i uuid4 Hid Hok _ Hnew.
    destruct (loan_payload_ok_inv data Hok) as (d & Hd & Hn & Hp).
    eexists _, _, _. split.
    { apply (save_loan_accepts st (Some "") data i uuid4 d Hid Hd Hn Hp). eauto. }
    cbn. rewrite lookup_insert_eq, Hnew. split; reflexivity.
  - intros data i uuid4 Hid Hok _. unfold transaction_payload_ok in Hok.
    destruct (parse_date (dget "date" data)) as [d|] eqn:Hd; [|discriminate].
    apply andb_prop in Hok as [Ha%negb_true_iff Ht%negb_true_iff].
    eexists _, _, _. split.
    { apply (save_transaction_accepts st "" data i uuid4 d Hid Hd Ha Ht). }
    cbn. rewrite lookup_insert_eq. split; reflexivity.
Qed.

Lemma rows_of_empty_user_hidden_witness :
  loan_car_data !! "id" = Some (JStr "L1")
  /\ loan_payload_ok loan_car_data = true
  /\ loan_payload_typed loan_car_data = true
  /\ loans db_empty !! "L1" = None
  /\ exists st' body loan,
       save_loan db_empty (Some "") loan_car "u0" = (st', Reply 200 body)
       /\ loans st' !! "L1" = Some loan
       /\ Loan.user_id loan = Some ""
       /\ (JStr "L1" ∉ sync_loan_ids (body_of (get_user_data st' (Some "")).2)).
Proof.
  do 4 (split; [reflexivity|]).
  destruct (rows_of_empty_user_hidden db_empty) as (_ & _ & H & _).
  destruct (H loan_car_data "L1" "u0") as (st' & body & loan & H1 & H2 & H3);
    [reflexivity..|].
  exists st', body, loan. do 3 (split; [assumption|]).
  destruct (rows_of_empty_user_hidden st') as (Hhid & _).
  exact (Hhid "L1" loan (Some "") H2 H3).
Defined.

(** X8.  After a transaction is deleted no sync shows it, for any user, and
    every sync shows the other transactions and the loans as before. *)
Theorem deleted_transaction_not_synced (st : db) (i : string) :
  is_Some (transactions st !! i) ->
  forall u,
    (JStr i ∉ sync_transaction_ids (body_of (get_user_data (delete_transaction st i).1 u).2))
    /\ (forall j, j <> i ->
         JStr j ∈ sync_transaction_ids (body_of (get_user_data (delete_transaction st i).1 u).2)
         <-> JStr j ∈ sync_transaction_ids (body_of (get_user_data st u).2))
    /\ items (field "loans" (body_of (get_user_data (delete_transaction st i).1 u).2))
       = items (field "loans" (body_of (get_user_data st u).2)).
Proof.
  intros [t Ht] u. unfold delete_transaction. rewrite Ht. cbn [fst].
  split; [|split].
  - intros [_ H]%elem_of_sync_transaction_ids. cbn in H.
    rewrite lookup_delete_eq in H. discriminate.
  - intros j Hj. rewrite !elem_of_sync_transaction_ids. cbn.
    rewrite lookup_delete_ne by congruence. reflexivity.
  - rewrite !sync_loans. reflexivity.
Qed.

Lemma deleted_transaction_not_synced_witness :
  is_Some (transactions db_one_tx !! "T1")
  /\ (JStr "T1" ∈ sync_transaction_ids (body_of (get_user_data db_one_tx (Some "A")).2))
  /\ (JStr "T1" ∉ sync_transaction_ids
                    (body_of (get_user_data (delete_transaction db_one_tx "T1").1 (Some "A")).2)).
Proof.
  assert (H : is_Some (transactions db_one_tx !! "T1")) by (vm_compute; eauto).
  split; [exact H|]. split.
  { apply elem_of_sync_transaction_ids. split; reflexivity. }
  exact (proj1 (deleted_transaction_not_synced db_one_tx "T1" H (Some "A"))).
Defined.

(** ** Payments *)

(** What [add_payment] does with a payload it takes. *)
Lemma add_payment_accepts (st : db) (data : gmap string json) (pid lk uuid4 : string)
    (d : date) :
  data !! "id" = Some (JStr pid) ->
  data !! "loanId" = Some (JStr lk) ->
  parse_date (dget "date" data) = Ok d ->
  is_null (dget "amount" data) = false ->
  payments st !! pid = None ->
  (enforce_fk st = true -> is_Some (loans st !! lk)) ->
  add_payment st (JObj data) uuid4 =
    let p := Payment.mk (Some lk) (Some d) (dget "amount" data) (dget "note" data) in
    (set_payments st (<[pid := p]> (payments st)),
     Reply 200 (Payment.to_dict (JStr pid) p)).
Proof.
  intros Hid%dget_lookup Hlk%dget_lookup Hd Ha Hfree Hfk.
  unfold add_payment. cbn. rewrite Hd. cbn. rewrite !Hid, !Hlk. cbn.
  unfold insert_payment, Payment.not_null, fk_ok. cbn.
  rewrite (bool_decide_eq_true_2 _ Hfree), Ha. cbn.
  destruct (enforce_fk st); cbn; [|reflexivity].
  rewrite (bool_decide_eq_true_2 _ (Hfk eq_refl)). reflexivity.
Qed.

Lemma payment_payload_ok_inv (data : gmap string json) :
  payment_payload_ok data = true ->
  exists d, parse_date (dget "date" data) = Ok d /\ is_null (dget "amount" data) = false.
Proof.
  unfold payment_payload_ok. destruct (parse_date _) as [d|]; [|discriminate].
  intros Ha%negb_true_iff. eauto.
Qed.

(** X9.  A payment added to a loan that is there, in a payload that is
    taken (a free string id, a date that parses, an amount, members of their
    columns' types), is shown by the next sync of the loan's owner, inside
    the loan: the reply to the request is one of the payments of the loan's
    dict, which is among the loans of the sync, and no sync for another
    user shows the payment. *)
Theorem added_payment_synced (st : db) (data : gmap string json)
    (pid lk uuid4 u : string) (l : Loan.t) :
  data !! "id" = Some (JStr pid) ->
  data !! "loanId" = Some (JStr lk) ->
  payment_payload_ok data = true ->
  payment_payload_typed data = true ->
  payments st !! pid = None ->
  loans st !! lk = Some l ->
  Loan.user_id l = Some u ->
  u <> "" ->
  exists st' reply,
    add_payment st (JObj data) uuid4 = (st', Reply 200 reply)
    /\ field "id" reply = JStr pid
    /\ reply ∈ items (field "payments" (Loan.to_dict (payments st') lk l))
    /\ Loan.to_dict (payments st') lk l
         ∈ items (field "loans" (body_of (get_user_data st' (Some u)).2))
    /\ JStr pid ∈ sync_payment_ids (body_of (get_user_data st' (Some u)).2)
    /\ forall v, v <> Some u ->
         JStr pid ∉ sync_payment_ids (body_of (get_user_data st' v).2).
Proof.
  intros Hid Hlk Hok _ Hfree Hl Hown Hu.
  destruct (payment_payload_ok_inv data Hok) as (d & Hd & Ha).
  eexists _, _. split.
  { apply (add_payment_accepts st data pid lk uuid4 d); eauto. }
  cbn. set (p := Payment.mk (Some lk) (Some d) (dget "amount" data) (dget "note" data)).
  set (st' := set_payments st (<[pid := p]> (payments st))).
  assert (Hin : Payment.to_dict (JStr pid) p
                  ∈ items (field "payments" (Loan.to_dict (payments st') lk l))).
  { rewrite loan_dict_payments. apply list_elem_of_fmap. exists (pid, p).
    split; [reflexivity|]. unfold Loan.payments. apply list_elem_of_filter.
    split; [reflexivity|]. apply elem_of_map_to_list. cbn. apply lookup_insert_eq. }
  assert (Hloan : Loan.to_dict (payments st') lk l
                    ∈ items (field "loans" (body_of (get_user_data st' (Some u)).2))).
  { apply elem_of_sync_loans. split; [cbn; apply bool_decide_eq_false_2, Hu|].
    exists lk, l. auto. }
  split; [reflexivity|]. split; [exact Hin|]. split; [exact Hloan|]. split.
  - unfold sync_payment_ids. apply list_elem_of_bind.
    exists (Loan.to_dict (payments st') lk l). split; [|exact Hloan].
    apply list_elem_of_fmap. exists (Payment.to_dict (JStr pid) p). split; [reflexivity|exact Hin].
  - intros v Hv (j & p' & Hj & Hp' & Hlj)%elem_of_sync_payment_ids.
    cbn in Hp'. rewrite lookup_insert_eq in Hp'. injection Hp' as <-.
    cbn in Hlj. injection Hlj as <-.
    apply elem_of_sync_loan_ids in Hj as [_ Hj]. cbn in Hj. rewrite Hl in Hj. cbn in Hj.
    congruence.
Qed.

Lemma added_payment_synced_witness :
  payment_april_data !! "id" = Some (JStr "P1")
  /\ payment_april_data !! "loanId" = Some (JStr "L1")
  /\ payment_payload_ok payment_april_data = true
  /\ payment_payload_typed payment_april_data = true
  /\ payments db_one_loan !! "P1" = None
  /\ Loan.user_id <$> loans db_one_loan !! "L1" = Some (Some "A")
  /\ exists st' reply,
       add_payment db_one_loan (JObj payment_april_data) "u2" = (st', Reply 200 reply)
       /\ (JStr "P1" ∈ sync_payment_ids (body_of (get_user_data st' (Some "A")).2))
       /\ (JStr "P1" ∉ sync_payment_ids (body_of (get_user_data st' (Some "B")).2)).
Proof.
  do 6 (split; [reflexivity|]).
  destruct (loans db_one_loan !! "L1") as [l|] eqn:Hl; [|discriminate].
  assert (Hown : Loan.user_id l = Some "A").
  { assert (H : Loan.user_id <$> loans db_one_loan !! "L1" = Some (Some "A")) by reflexivity.
    rewrite Hl in H. cbn in H. congruence. }
  destruct (added_payment_synced db_one_loan payment_april_data "P1" "L1" "u2" "A" l)
    as (st' & reply & H1 & _ & _ & _ & H5 & H6);
    [reflexivity|reflexivity|reflexivity|reflexivity|reflexivity|exact Hl|exact Hown
    |discriminate|].
  exists st', reply. split; [exact H1|]. split; [exact H5|]. apply H6. discriminate.
Defined.

(** X10.  [add_payment] is no upsert: a payload whose id names a payment
    that is stored is never taken, whatever else it holds; the request
    raises and the store is as it was. *)
Theorem stored_payment_not_replaced (st : db) (data : gmap string json)
    (pid uuid4 : string) :
  data !! "id" = Some (JStr pid) ->
  is_Some (payments st !! pid) ->
  exists e, add_payment st (JObj data) uuid4 = (st, Uncaught e).
Proof.
  intros Hid%dget_lookup [p Hp].
  destruct (add_payment_cases st (JObj data) uuid4)
    as [H|(data' & k & lk & d & Hb & Hk & _ & _ & _ & Hfree & _)]; [exact H|].
  injection Hb as <-. rewrite Hid in Hk. cbn in Hk. injection Hk as <-.
  cbn in Hfree. congruence.
Qed.

Lemma stored_payment_not_replaced_witness :
  payment_april_data !! "id" = Some (JStr "P1")
  /\ is_Some (payments db_paid_loan !! "P1")
  /\ add_payment db_paid_loan (JObj payment_april_data) "u9"
     = (db_paid_loan, Uncaught IntegrityError).
Proof.
  assert (H : is_Some (payments db_paid_loan !! "P1")) by (vm_compute; eauto).
  split; [reflexivity|]. split; [exact H|].
  destruct (stored_payment_not_replaced db_paid_loan payment_april_data "P1" "u9" eq_refl H)
    as [e He].
  rewrite He. f_equal.
  assert (E : (add_payment db_paid_loan (JObj payment_april_data) "u9").2
              = Uncaught IntegrityError) by reflexivity.
  rewrite He in E. exact E.
Defined.

(** X11.  A payment for a loan that is not there, in a payload that would
    be taken otherwise (a free string id, a date that parses, an amount,
    members of their columns' types): where the database enforces the
    foreign key the request raises and nothing is stored; where it does not,
    the payment is stored, and no sync of the resulting store, for any user,
    shows it. *)
Theorem payment_for_missing_loan (st : db) (data : gmap string json)
    (pid lk uuid4 : string) :
  data !! "id" = Some (JStr pid) ->
  data !! "loanId" = Some (JStr lk) ->
  payment_payload_ok data = true ->
  payment_payload_typed data = true ->
  payments st !! pid = None ->
  loans st !! lk = None ->
  (enforce_fk st = true ->
     add_payment st (JObj data) uuid4 = (st, Uncaught IntegrityError))
  /\ (enforce_fk st = false ->
      exists st' reply,
        add_payment st (JObj data) uuid4 = (st', Reply 200 reply)
        /\ is_Some (payments st' !! pid)
        /\ forall u, JStr pid ∉ sync_payment_ids (body_of (get_user_data st' u).2)).
Proof.
  intros Hid Hlk Hok _ Hfree Hl.
  destruct (payment_payload_ok_inv data Hok) as (d & Hd & Ha).
  split; intros Hfk.
  - pose proof (dget_lookup _ _ _ Hid) as Hid'. pose proof (dget_lookup _ _ _ Hlk) as Hlk'.
    unfold add_payment. cbn. rewrite Hd. cbn. rewrite !Hid', !Hlk'. cbn.
    unfold insert_payment, Payment.not_null, fk_ok. cbn.
    rewrite (bool_decide_eq_true_2 _ Hfree), Ha, Hfk, Hl. reflexivity.
  - eexists _, _. split.
    { apply (add_payment_accepts st data pid lk uuid4 d); eauto. congruence. }
    cbn. rewrite lookup_insert_eq. split; [eauto|].
    intros u (j & p' & Hj & Hp' & Hlj)%elem_of_sync_payment_ids.
    cbn in Hp'. rewrite lookup_insert_eq in Hp'. injection Hp' as <-.
    cbn in Hlj. injection Hlj as <-.
    apply elem_of_sync_loan_ids in Hj as [_ Hj]. cbn in Hj. rewrite Hl in Hj. discriminate.
Qed.

Lemma payment_for_missing_loan_witness :
  payment_orphan_data !! "id" = Some (JStr "P2")
  /\ payment_orphan_data !! "loanId" = Some (JStr "L7")
  /\ payment_payload_ok payment_orphan_data = true
  /\ payment_payload_typed payment_orphan_data = true
  /\ loans db_one_loan !! "L7" = None
  /\ add_payment db_one_loan (JObj payment_orphan_data) "u1"
     = (db_one_loan, Uncaught IntegrityError)
  /\ exists st' reply,
       add_payment db_one_loan_no_fk (JObj payment_orphan_data) "u1" = (st', Reply 200 reply)
       /\ is_Some (payments st' !! "P2")
       /\ (JStr "P2" ∉ sync_payment_ids (body_of (get_user_data st' (Some "A")).2)).
Proof.
  do 5 (split; [reflexivity|]).
  destruct (payment_for_missing_loan db_one_loan payment_orphan_data "P2" "L7" "u1")
    as [H1 _]; [reflexivity..|].
  destruct (payment_for_missing_loan db_one_loan_no_fk payment_orphan_data "P2" "L7" "u1")
    as [_ H2]; [reflexivity..|].
  split; [exact (H1 eq_refl)|].
  destruct (H2 eq_refl) as (st' & reply & Ha & Hb & Hc). exists st', reply. eauto.
Defined.

Lemma add_payment_needs_loan_id (st : db) (data : gmap string json) (uuid4 : string) :
  (forall s, dget "loanId" data <> JStr s) ->
  exists e, add_payment st (JObj data) uuid4 = (st, Uncaught e).
Proof.
  intros Hno.
  destruct (add_payment_cases st (JObj data) uuid4)
    as [H|(data' & k & lk & d & Hb & _ & Hlk & _)]; [exact H|].
  injection Hb as <-. unfold string_key in Hlk.
  destruct (dget "loanId" data) eqn:E; try discriminate.
  cbn in Hlk. exfalso. eapply Hno. reflexivity.
Qed.

(** X12.  The dict a payment is serialised to has no [loanId], so it cannot
    be posted back: sent to [add_payment], the dict of any payment, under
    any id, raises and leaves the store as it was. *)
Theorem payment_dict_not_postable (st : db) (v : json) (p : Payment.t) (uuid4 : string) :
  exists e, add_payment st (Payment.to_dict v p) uuid4 = (st, Uncaught e).
Proof.
  apply add_payment_needs_loan_id. intros s. discriminate.
Qed.

(** ** Upserts, continued *)

Lemma transaction_payload_ok_inv (data : gmap string json) :
  transaction_payload_ok data = true ->
  exists d, parse_date (dget "date" data) = Ok d
            /\ is_null (dget "amount" data) = false
            /\ is_null (dget "type" data) = false.
Proof.
  unfold transaction_payload_ok. destruct (parse_date _) as [d|]; [|discriminate].
  intros [Ha%negb_true_iff Ht%negb_true_iff]%andb_prop. eauto.
Qed.

(** X13.  A transaction upserted again by another user, in a payload that is
    taken (a date that parses, an amount and a type, members of their
    columns' types), changes hands: the sync of the user who owned it shows
    it no more, and the sync of the user who sent the upsert shows it. *)
Theorem reupserted_transaction_changes_hands (st : db) (A B : string)
    (data : gmap string json) (i uuid4 : string) (t : Transaction.t) :
  transactions st !! i = Some t ->
  Transaction.user_id t = Some A ->
  A <> B -> A <> "" -> B <> "" ->
  text_ok B = true ->
  data !! "id" = Some (JStr i) ->
  transaction_payload_ok data = true ->
  transaction_payload_typed data = true ->
  (JStr i ∈ sync_transaction_ids (body_of (get_user_data st (Some A)).2))
  /\ (JStr i ∉ sync_transaction_ids (body_of (get_user_data st (Some B)).2))
  /\ exists st' reply,
       save_transaction st (Some B) (JObj data) uuid4 = (st', Reply 200 reply)
       /\ (JStr i ∉ sync_transaction_ids (body_of (get_user_data st' (Some A)).2))
       /\ (JStr i ∈ sync_transaction_ids (body_of (get_user_data st' (Some B)).2)).
Proof.
  intros Ht Hown HAB HA HB _ Hid Hok _.
  destruct (transaction_payload_ok_inv data Hok) as (d & Hd & Ha & Hty).
  split; [|split].
  - apply elem_of_sync_transaction_ids. split; [cbn; apply bool_decide_eq_false_2, HA|].
    rewrite Ht. cbn. congruence.
  - intros [_ H]%elem_of_sync_transaction_ids. rewrite Ht in H. cbn in H. congruence.
  - eexists _, _. split.
    { apply (save_transaction_accepts st B data i uuid4 d Hid Hd Ha Hty). }
    cbn. split.
    + intros [_ H]%elem_of_sync_transaction_ids. cbn in H.
      rewrite lookup_insert_eq in H. cbn in H. congruence.
    + apply elem_of_sync_transaction_ids. split; [cbn; apply bool_decide_eq_false_2, HB|].
      cbn. rewrite lookup_insert_eq. reflexivity.
Qed.

Lemma reupserted_transaction_changes_hands_witness :
  Transaction.user_id <$> transactions db_one_tx !! "T1" = Some (Some "A")
  /\ tx_march_changed !! "id" = Some (JStr "T1")
  /\ transaction_payload_ok tx_march_changed = true
  /\ transaction_payload_typed tx_march_changed = true
  /\ text_ok "B" = true
  /\ exists st' reply,
       save_transaction db_one_tx (Some "B") (JObj tx_march_changed) "u1"
         = (st', Reply 200 reply)
       /\ (JStr "T1" ∉ sync_transaction_ids (body_of (get_user_data st' (Some "A")).2))
       /\ (JStr "T1" ∈ sync_transaction_ids (body_of (get_user_data st' (Some "B")).2)).
Proof.
  do 5 (split; [reflexivity|]).
  destruct (transactions db_one_tx !! "T1") as [t|] eqn:Ht; [|discriminate].
  assert (Hown : Transaction.user_id t = Some "A").
  { assert (H : Transaction.user_id <$> transactions db_one_tx !! "T1" = Some (Some "A"))
      by reflexivity.
    rewrite Ht in H. cbn in H. congruence. }
  destruct (reupserted_transaction_changes_hands db_one_tx "A" "B" tx_march_changed
              "T1" "u1" t Ht Hown) as (_ & _ & H);
    [discriminate|discriminate|discriminate|reflexivity|reflexivity|reflexivity
    |reflexivity|].
  exact H.
Defined.

(** X14.  When the loan exists, the [userId] of an upsert plays no part:
    the request does the same whoever sends it, with or without a [userId].
    A payload that is taken (a date that parses, a name and a principal,
    members of their columns' types) rewrites the loan, and the owner's next
    sync shows the loan as the sender wrote it. *)
Theorem existing_loan_upsert_ignores_user (st : db) (data : gmap string json)
    (i : string) (old : Loan.t) (uid1 uid2 : option string) (u1 u2 : string) :
  data !! "id" = Some (JStr i) ->
  loans st !! i = Some old ->
  save_loan st uid1 (JObj data) u1 = save_loan st uid2 (JObj data) u2
  /\ (loan_payload_ok data = true ->
      loan_payload_typed data = true ->
      forall u, Loan.user_id old = Some u -> u <> "" ->
      exists st' reply,
        save_loan st uid1 (JObj data) u1 = (st', Reply 200 reply)
        /\ field "name" reply = dget "name" data
        /\ field "principal" reply = dget "principal" data
        /\ reply ∈ items (field "loans" (body_of (get_user_data st' (Some u)).2))).
Proof.
  intros Hid Hold. split.
  - pose proof (dget_lookup _ _ _ Hid) as Hid'.
    unfold save_loan. cbn. rewrite !Hid'. cbn. rewrite Hold. reflexivity.
  - intros Hok _ u Hown Hu.
    destruct (loan_payload_ok_inv data Hok) as (d & Hd & Hn & Hp).
    eexists _, _. split.
    { apply (save_loan_accepts st uid1 data i u1 d Hid Hd Hn Hp). congruence. }
    rewrite Hold. cbn. split; [reflexivity|]. split; [reflexivity|].
    apply elem_of_sync_loans. split; [cbn; apply bool_decide_eq_false_2, Hu|].
    eexists i, _. split; [cbn; apply lookup_insert_eq|].
    cbn. split; [exact Hown|reflexivity].
Qed.

Lemma existing_loan_upsert_ignores_user_witness :
  loan_car_renamed !! "id" = Some (JStr "L1")
  /\ Loan.user_id <$> loans db_one_loan !! "L1" = Some (Some "A")
  /\ loan_payload_ok loan_car_renamed = true
  /\ loan_payload_typed loan_car_renamed = true
  /\ save_loan db_one_loan (Some "B") (JObj loan_car_renamed) "u1"
     = save_loan db_one_loan None (JObj loan_car_renamed) "u2"
  /\ exists st' reply,
       save_loan db_one_loan (Some "B") (JObj loan_car_renamed) "u1" = (st', Reply 200 reply)
       /\ field "name" reply = JStr "van"
       /\ reply ∈ items (field "loans" (body_of (get_user_data st' (Some "A")).2)).
Proof.
  do 4 (split; [reflexivity|]).
  destruct (loans db_one_loan !! "L1") as [old|] eqn:Hold; [|discriminate].
  assert (Hown : Loan.user_id old = Some "A").
  { assert (H : Loan.user_id <$> loans db_one_loan !! "L1" = Some (Some "A")) by reflexivity.
    rewrite Hold in H. cbn in H. congruence. }
  destruct (existing_loan_upsert_ignores_user db_one_loan loan_car_renamed "L1" old
              (Some "B") None "u1" "u2" eq_refl Hold) as [H1 H2].
  split; [exact H1|].
  destruct (H2 eq_refl eq_refl "A" Hown) as (st' & reply & Ha & Hb & _ & Hd); [discriminate|].
  exists st', reply. split; [exact Ha|]. split; [exact Hb|exact Hd].
Defined.



(** X16.  A transaction sent without an id, in a payload that is taken (a
    date that parses, an amount and a type, members of their columns'
    types), is stored under a generated key, and the reply does not tell
    it: its [id] is null.  Sent again, the same payload is stored again
    under another key, so the table has two rows more. *)
Theorem transaction_without_id_duplicates (st : db) (u : string)
    (data : gmap string json) (k1 k2 : string) :
  data !! "id" = None ->
  transaction_payload_ok data = true ->
  transaction_payload_typed data = true ->
  text_ok u = true ->
  transactions st !! k1 = None ->
  transactions st !! k2 = None ->
  k1 <> k2 ->
  exists st1 st2 reply,
    save_transaction st (Some u) (JObj data) k1 = (st1, Reply 200 reply)
    /\ field "id" reply = JNull
    /\ is_Some (transactions st1 !! k1)
    /\ save_transaction st1 (Some u) (JObj data) k2 = (st2, Reply 200 reply)
    /\ is_Some (transactions st2 !! k1)
    /\ is_Some (transactions st2 !! k2)
    /\ size (transactions st2) = S (S (size (transactions st))).
Proof.
  intros Hid Hok _ _ H1 H2 Hne.
  destruct (transaction_payload_ok_inv data Hok) as (d & Hd & Ha & Ht).
  assert (Hid' : dget "id" data = JNull) by (unfold dget; rewrite Hid; reflexivity).
  assert (Hstep : forall (s : db) (k : string),
    transactions s !! k = None ->
    save_transaction s (Some u) (JObj data) k =
      let tx := Transaction.mk (Some u) (Some d) (dget "amount" data) (dget "type" data)
                  (dget "category" data) (dget "description" data) in
      (set_transactions s (<[k := tx]> (transactions s)),
       Reply 200 (Transaction.to_dict JNull tx))).
  { intros s k Hk. unfold save_transaction. cbn. rewrite Hd. cbn. rewrite !Hid'. cbn.
    unfold merge_transaction, Transaction.not_null. cbn. rewrite Ha, Ht. cbn.
    rewrite (bool_decide_eq_true_2 _ Hk). reflexivity. }
  eexists _, _, _. split; [apply (Hstep st k1 H1)|]. cbn.
  split; [reflexivity|]. split; [rewrite lookup_insert_eq; eauto|].
  split.
  { rewrite Hstep; [reflexivity|]. cbn. rewrite lookup_insert_ne by exact Hne. exact H2. }
  cbn. split; [rewrite lookup_insert_ne, lookup_insert_eq by congruence; eauto|].
  split; [rewrite lookup_insert_eq; eauto|].
  rewrite !map_size_insert_None; [reflexivity|exact H1|].
  rewrite lookup_insert_ne by exact Hne. exact H2.
Qed.

Lemma transaction_without_id_duplicates_witness :
  tx_no_id !! "id" = None
  /\ transaction_payload_ok tx_no_id = true
  /\ transaction_payload_typed tx_no_id = true
  /\ text_ok "A" = true
  /\ exists st1 st2 reply,
       save_transaction db_empty (Some "A") (JObj tx_no_id) "k1" = (st1, Reply 200 reply)
       /\ field "id" reply = JNull
       /\ save_transaction st1 (Some "A") (JObj tx_no_id) "k2" = (st2, Reply 200 reply)
       /\ size (transactions st2) = 2%nat.
Proof.
  do 4 (split; [reflexivity|]).
  destruct (transaction_without_id_duplicates db_empty "A" tx_no_id "k1" "k2")
    as (st1 & st2 & reply & H1 & H2 & _ & H4 & _ & _ & H7);
    [reflexivity|reflexivity|reflexivity|reflexivity|reflexivity|reflexivity|discriminate|].
  exists st1, st2, reply. repeat split; assumption.
Defined.

(** X17.  A loan sent without an id, in a payload that is taken (a date
    that parses, a name and a principal, members of their columns' types),
    is stored under a generated key, which the reply gives as its [id].
    Sent again, the same payload makes a second loan: the upsert is
    idempotent only with an id. *)
Theorem loan_without_id_duplicates (st : db) (u : string)
    (data : gmap string json) (k1 k2 : string) :
  data !! "id" = None ->
  loan_payload_ok data = true ->
  loan_payload_typed data = true ->
  text_ok u = true ->
  loans st !! k1 = None ->
  loans st !! k2 = None ->
  k1 <> k2 ->
  exists st1 st2 reply1 reply2,
    save_loan st (Some u) (JObj data) k1 = (st1, Reply 200 reply1)
    /\ field "id" reply1 = JStr k1
    /\ save_loan st1 (Some u) (JObj data) k2 = (st2, Reply 200 reply2)
    /\ field "id" reply2 = JStr k2
    /\ is_Some (loans st2 !! k1)
    /\ is_Some (loans st2 !! k2)
    /\ size (loans st2) = S (S (size (loans st))).
Proof.
  intros Hid Hok _ _ H1 H2 Hne.
  destruct (loan_payload_ok_inv data Hok) as (d & Hd & Hn & Hp).
  assert (Hid' : dget "id" data = JNull) by (unfold dget; rewrite Hid; reflexivity).
  assert (Hstep : forall (s : db) (k : string),
    loans s !! k = None ->
    save_loan s (Some u) (JObj data) k =
      let loan := Loan.insert_defaults (Loan.update_fields (Loan.new (Some u)) data d) in
      (set_loans s (<[k := loan]> (loans s)),
       Reply 200 (Loan.to_dict (payments s) k loan))).
  { intros s k Hk. unfold save_loan. cbn. rewrite !Hid'. cbn. rewrite Hd. cbn.
    unfold insert_loan, Loan.not_null. cbn. rewrite Hn, Hp. cbn.
    rewrite (bool_decide_eq_true_2 _ Hk). cbn. rewrite lookup_insert_eq. reflexivity. }
  eexists _, _, _, _. split; [apply (Hstep st k1 H1)|]. cbn.
  split; [reflexivity|]. split.
  { rewrite Hstep; [reflexivity|]. cbn. rewrite lookup_insert_ne by exact Hne. exact H2. }
  cbn. split; [reflexivity|].
  split; [rewrite lookup_insert_ne, lookup_insert_eq by congruence; eauto|].
  split; [rewrite lookup_insert_eq; eauto|].
  rewrite !map_size_insert_None; [reflexivity|exact H1|].
  rewrite lookup_insert_ne by exact Hne. exact H2.
Qed.

Lemma loan_without_id_duplicates_witness :
  loan_no_id !! "id" = None
  /\ loan_payload_ok loan_no_id = true
  /\ loan_payload_typed loan_no_id = true
  /\ text_ok "A" = true
  /\ exists st1 st2 reply1 reply2,
       save_loan db_empty (Some "A") (JObj loan_no_id) "k1" = (st1, Reply 200 reply1)
       /\ field "id" reply1 = JStr "k1"
       /\ save_loan st1 (Some "A") (JObj loan_no_id) "k2" = (st2, Reply 200 reply2)
       /\ field "id" reply2 = JStr "k2"
       /\ size (loans st2) = 2%nat.
Proof.
  do 4 (split; [reflexivity|]).
  destruct (loan_without_id_duplicates db_empty "A" loan_no_id "k1" "k2")
    as (st1 & st2 & r1 & r2 & H1 & H2 & H3 & H4 & _ & _ & H7);
    [reflexivity|reflexivity|reflexivity|reflexivity|reflexivity|reflexivity|discriminate|].
  exists st1, st2, r1, r2. repeat split; assumption.
Defined.

(** ** Serialising and posting back *)

Lemma set_loans_same (st : db) : set_loans st (loans st) = st.
Proof. destruct st. reflexivity. Qed.

Lemma set_transactions_same (st : db) : set_transactions st (transactions st) = st.
Proof. destruct st. reflexivity. Qed.

(** X18.  The dict of a stored loan, as a sync gives it, can be posted back:
    for a loan with a name, a principal and a start date that exists, the
    upsert of its own dict, under any [userId], leaves the store exactly as
    it is and replies with the same dict. *)
Theorem synced_loan_posts_back (st : db) (uid : option string) (i uuid4 : string)
    (l : Loan.t) (d : date) :
  loans st !! i = Some l ->
  Loan.start_date l = Some d ->
  valid_date d = true ->
  is_null (Loan.name l) = false ->
  is_null (Loan.principal l) = false ->
  save_loan st uid (Loan.to_dict (payments st) i l) uuid4
  = (st, Reply 200 (Loan.to_dict (payments st) i l)).
Proof.
  intros Hl Hstart Hv Hn Hp.
  unfold Loan.to_dict at 1. unfold dict.
  rewrite (save_loan_accepts st uid _ i uuid4 d).
  - cbv zeta. rewrite Hl. cbn [default].
    match goal with
    | |- context [Loan.update_fields ?x ?m d] =>
        assert (Hsame : Loan.update_fields x m d = l)
          by (clear - Hstart; destruct l; cbn in Hstart; subst; reflexivity);
        rewrite Hsame
    end.
    rewrite (insert_id _ _ _ Hl), set_loans_same. reflexivity.
  - reflexivity.
  - change (parse_date_T (iso_or_none (Loan.start_date l)) = Ok d).
    rewrite Hstart. apply (parse_date_T_text d None Hv).
  - exact Hn.
  - exact Hp.
  - rewrite Hl. discriminate.
Qed.

Lemma synced_loan_posts_back_witness :
  exists l d,
    loans db_paid_loan !! "L1" = Some l
    /\ Loan.start_date l = Some d
    /\ valid_date d = true
    /\ save_loan db_paid_loan (Some "B") (Loan.to_dict (payments db_paid_loan) "L1" l) "u5"
       = (db_paid_loan, Reply 200 (Loan.to_dict (payments db_paid_loan) "L1" l)).
Proof.
  destruct (loans db_paid_loan !! "L1") as [l|] eqn:Hl; [|discriminate].
  assert (Hrow : Some l = Some
            (Loan.mk (Some "A") (JStr "car") (JStr "bank") (JInt 1000) JNull
               (Some (Date 2024 3 15)) JNull JNull (JInt 0) JNull JNull (JStr "active")
               (JBool false))) by (rewrite <- Hl; reflexivity).
  injection Hrow as ->.
  eexists _, (Date 2024 3 15). split; [reflexivity|]. split; [reflexivity|].
  split; [reflexivity|].
  apply (synced_loan_posts_back db_paid_loan (Some "B") "L1" "u5" _ (Date 2024 3 15) Hl);
    reflexivity.
Defined.

(** X19.  The dict of a stored transaction can be posted back by its owner:
    for a transaction with an amount, a type and a date that exists, the
    upsert of its own dict under its owner leaves the store exactly as it is
    and replies with the same dict. *)
Theorem synced_transaction_posts_back (st : db) (u i uuid4 : string)
    (t : Transaction.t) (d : date) :
  transactions st !! i = Some t ->
  Transaction.user_id t = Some u ->
  Transaction.date t = Some d ->
  valid_date d = true ->
  is_null (Transaction.amount t) = false ->
  is_null (Transaction.type t) = false ->
  save_transaction st (Some u) (Transaction.to_dict (JStr i) t) uuid4
  = (st, Reply 200 (Transaction.to_dict (JStr i) t)).
Proof.
  intros Ht Hown Hdate Hv Ha Hty.
  unfold Transaction.to_dict at 1. unfold dict.
  rewrite (save_transaction_accepts st u _ i uuid4 d).
  - cbv zeta.
    match goal with
    | |- context [Transaction.mk ?a ?b ?c ?e ?f ?g] =>
        assert (Hsame : Transaction.mk a b c e f g = t)
          by (clear - Hown Hdate; destruct t; cbn in Hown, Hdate; subst; reflexivity);
        rewrite Hsame
    end.
    rewrite (insert_id _ _ _ Ht), set_transactions_same. reflexivity.
  - reflexivity.
  - change (parse_date (iso_or_none (Transaction.date t)) = Ok d).
    rewrite Hdate. cbn. rewrite (strptime_isoformat d Hv). reflexivity.
  - exact Ha.
  - exact Hty.
Qed.

Lemma synced_transaction_posts_back_witness :
  exists t d,
    transactions db_one_tx !! "T1" = Some t
    /\ Transaction.user_id t = Some "A"
    /\ Transaction.date t = Some d
    /\ valid_date d = true
    /\ save_transaction db_one_tx (Some "A") (Transaction.to_dict (JStr "T1") t) "u5"
       = (db_one_tx, Reply 200 (Transaction.to_dict (JStr "T1") t)).
Proof.
  destruct (transactions db_one_tx !! "T1") as [t|] eqn:Ht; [|discriminate].
  assert (Hrow : Some t = Some
            (Transaction.mk (Some "A") (Some (Date 2024 3 15)) (JInt 250) (JStr "expense")
               (JStr "food") JNull)) by (rewrite <- Ht; reflexivity).
  injection Hrow as ->.
  eexists _, (Date 2024 3 15). do 4 (split; [reflexivity|]).
  apply (synced_transaction_posts_back db_one_tx "A" "T1" "u5" _ (Date 2024 3 15) Ht);
    reflexivity.
Defined.

(** ** Dates, continued *)

(** The month and the day written with two digits each are the first match
    of the pattern whatever follows them. *)
Lemma md_fmt02_rest (mo dy : Z) (r : string) :
  1 <= mo <= 12 -> 1 <= dy <= 31 ->
  head (Re.md ("-" ++ fmt02 mo ++ "-" ++ fmt02 dy ++ r)%string) = Some ((mo, dy), r).
Proof.
  intros Hm Hd.
  assert (Hm' : mo = 1 \/ mo = 2 \/ mo = 3 \/ mo = 4 \/ mo = 5 \/ mo = 6 \/ mo = 7 \/ mo = 8 \/ mo = 9 \/ mo = 10 \/ mo = 11 \/ mo = 12) by lia.
  assert (Hd' : dy = 1 \/ dy = 2 \/ dy = 3 \/ dy = 4 \/ dy = 5 \/ dy = 6 \/ dy = 7 \/ dy = 8 \/ dy = 9 \/ dy = 10 \/ dy = 11 \/ dy = 12 \/ dy = 13 \/ dy = 14 \/ dy = 15 \/ dy = 16 \/ dy = 17 \/ dy = 18 \/ dy = 19 \/ dy = 20 \/ dy = 21 \/ dy = 22 \/ dy = 23 \/ dy = 24 \/ dy = 25 \/ dy = 26 \/ dy = 27 \/ dy = 28 \/ dy = 29 \/ dy = 30 \/ dy = 31) by lia.
  clear Hm Hd.
  destruct Hm' as [ -> | [ -> | [ -> | [ -> | [ -> | [ -> | [ -> | [ -> | [ -> | [ -> | [ -> | -> ]]]]]]]]]]];
    destruct Hd' as [ -> | [ -> | [ -> | [ -> | [ -> | [ -> | [ -> | [ -> | [ -> | [ -> | [ -> | [ -> | [ -> | [ -> | [ -> | [ -> | [ -> | [ -> | [ -> | [ -> | [ -> | [ -> | [ -> | [ -> | [ -> | [ -> | [ -> | [ -> | [ -> | [ -> | -> ]]]]]]]]]]]]]]]]]]]]]]]]]]]]]];
    reflexivity.
Qed.

(** A date followed by ['T'] and a time is not a date for [strptime]. *)
Lemma strptime_with_time (dt : date) (time : string) :
  valid_date dt = true -> strptime (isoformat dt ++ "T" ++ time)%string = None.
Proof.
  intros Hv. destruct (valid_date_bounds dt Hv) as (Hy & Hm & Hd).
  destruct dt as [y mo dy]; cbn [year month day] in *.
  assert (E : (isoformat (Date y mo dy) ++ "T" ++ time)%string
              = (fmt04 y ++ ("-" ++ fmt02 mo ++ "-" ++ fmt02 dy ++ ("T" ++ time)))%string)
    by reflexivity.
  rewrite E. unfold strptime, Re.Ymd.
  pose proof (md_fmt02_rest mo dy ("T" ++ time)%string Hm Hd) as Hmd.
  destruct (Re.md _) as [|x l] eqn:Emd; [discriminate|]. injection Hmd as ->.
  destruct (seq_first (fun y x => Date y (fst x) (snd x)) Re.Y Re.md
              _ _ _ _ _ _ (Y_fmt04 y _ ltac:(lia)) Emd) as [l' ->].
  reflexivity.
Qed.

(** X20.  Only the loan route drops a time: a date followed by ['T'] and a
    time, which [save_loan] takes as [startDate], is refused as the [date]
    of a transaction and of a payment; both requests raise [ValueError] and
    store nothing. *)
Theorem date_time_refused_outside_loans (dt : date) (time : string)
    (data : gmap string json) :
  valid_date dt = true ->
  data !! "date" = Some (JStr (isoformat dt ++ "T" ++ time)%string) ->
  parse_date_T (dget "date" data) = Ok dt
  /\ (forall st uid uuid4,
       save_transaction st uid (JObj data) uuid4 = (st, Uncaught ValueError))
  /\ (forall st uuid4, add_payment st (JObj data) uuid4 = (st, Uncaught ValueError)).
Proof.
  intros Hv Hd%dget_lookup.
  assert (Hp : parse_date (dget "date" data) = Raise ValueError).
  { rewrite Hd. cbn. rewrite (strptime_with_time dt time Hv). reflexivity. }
  split; [|split].
  - rewrite Hd. apply (parse_date_T_text dt (Some time) Hv).
  - intros st uid uuid4. unfold save_transaction. cbn. rewrite Hp. reflexivity.
  - intros st uuid4. unfold add_payment. cbn. rewrite Hp. reflexivity.
Qed.

Lemma date_time_refused_outside_loans_witness :
  valid_date (Date 2024 3 15) = true
  /\ tx_with_time !! "date" = Some (JStr "2024-03-15T00:00:00Z")
  /\ save_transaction db_one_loan (Some "A") (JObj tx_with_time) "u1"
     = (db_one_loan, Uncaught ValueError)
  /\ add_payment db_one_loan (JObj tx_with_time) "u1" = (db_one_loan, Uncaught ValueError).
Proof.
  do 2 (split; [reflexivity|]).
  destruct (date_time_refused_outside_loans (Date 2024 3 15) "00:00:00Z" tx_with_time)
    as (_ & H1 & H2); [reflexivity|reflexivity|].
  split; [apply H1|apply H2].
Defined.

(** X21.  What [strptime] takes it gives back in one form: a string read as
    a date names a date that exists, and the text [isoformat] writes for
    that date has ten characters, no ['T'], and is read back as the same
    date, also when the string was written without leading zeros. *)
Theorem strptime_isoformat_canonical (s : string) (d : date) :
  strptime s = Some d ->
  valid_date d = true
  /\ strptime (isoformat d) = Some d
  /\ split_T_0 (isoformat d) = isoformat d
  /\ String.length (isoformat d) = 10%nat.
Proof.
  intros Hs. pose proof (strptime_valid s d Hs) as Hv.
  split; [exact Hv|]. split; [apply strptime_isoformat, Hv|].
  split; [apply split_T_0_isoformat_alone, Hv|apply isoformat_length].
Qed.

Lemma strptime_isoformat_canonical_witness :
  strptime "2024-3-5" = Some (Date 2024 3 5)
  /\ isoformat (Date 2024 3 5) = "2024-03-05"
  /\ strptime (isoformat (Date 2024 3 5)) = Some (Date 2024 3 5).
Proof.
  split; [reflexivity|]. split; [reflexivity|].
  exact (proj1 (proj2 (strptime_isoformat_canonical "2024-3-5" (Date 2024 3 5) eq_refl))).
Defined.
